(** * A teachable chat bot: [src/components/test class.py]

    The program loads a table of remembered replies from
    [chat_memory.json], then reads lines in a loop: a known phrase is
    answered from the table, an unknown one starts the teach dialogue, and
    [quit] leaves the loop.

    Conventions of the embedding.
    - A Python [str] is a list of code points.  [PyUnicode] has
      [str.strip] and [str.lower] over all of them, with the white space,
      lowercase, Cased and Case_Ignorable tables of the interpreter; the
      laws of normalization are proved there.  The state of the script is
      written with [string], the strings of code points below 256, on
      which [PyStr] has the same functions ([normalize_of_string]).
    - A Python object that [json.load] can produce is a [json] value; a
      [dict] with string keys is a [gmap string json].
    - The file system, the standard input, the standard output and the
      global variable [brain] form the [state] that every statement
      threads; an uncaught exception ends the run with that state. *)

From Stdlib Require Import Ascii String NArith List.
From stdpp Require Import base option relations list strings gmap fin_maps.

Local Open Scope string_scope.

(** ** Strings: [str.strip] and [str.lower] *)

Module PyStr.

(** [ch.isspace()] for a code point below 256: TAB..CR, FS..US, SPACE,
    NEL (133) and NBSP (160). *)
Definition isspace (c : ascii) : bool :=
  let n := N_of_ascii c in
  ((9 <=? n) && (n <=? 13) || (28 <=? n) && (n <=? 32)
   || (n =? 133) || (n =? 160))%N.

(** [ch.lower()] for a code point below 256: A..Z, and the Latin-1 capitals
    192..222 except the multiplication sign 215, move up by 32. *)
Definition lower_char (c : ascii) : ascii :=
  let n := N_of_ascii c in
  if ((65 <=? n) && (n <=? 90) || (192 <=? n) && (n <=? 214)
      || (216 <=? n) && (n <=? 222))%N
  then ascii_of_N (n + 32) else c.

(** [s.lower()] *)
Fixpoint lower (s : string) : string :=
  match s with
  | EmptyString => EmptyString
  | String c s' => String (lower_char c) (lower s')
  end.

(** [s.lstrip()]: drop the leading run of white space. *)
Fixpoint lstrip (s : string) : string :=
  match s with
  | EmptyString => EmptyString
  | String c s' => if isspace c then lstrip s' else s
  end.

Definition is_empty (s : string) : bool :=
  match s with EmptyString => true | String _ _ => false end.

(** [s.rstrip()]: drop the trailing run of white space. *)
Fixpoint rstrip (s : string) : string :=
  match s with
  | EmptyString => EmptyString
  | String c s' =>
      let r := rstrip s' in
      if isspace c && is_empty r then EmptyString else String c r
  end.

(** [s.strip()]: the left index moves first, then the right one. *)
Definition strip (s : string) : string := rstrip (lstrip s).

(** The expression of line 15 applied to the line read:
    [raw.strip().lower()]. *)
Definition normalize (raw : string) : string := lower (strip raw).

(** Every character of [s] is white space. *)
Fixpoint blank (s : string) : bool :=
  match s with
  | EmptyString => true
  | String c s' => isspace c && blank s'
  end.

(** [s] is empty or starts with a character that is not white space. *)
Definition starts_solid (s : string) : Prop :=
  match s with
  | EmptyString => True
  | String c _ => isspace c = false
  end.

End PyStr.

(** ** Strings in full: a [str] as a list of code points

    [PyStr] above is what the script's state is written in.  This module
    is the whole of [str.strip] and [str.lower], over every code point,
    with the tables of the interpreter's Unicode database (Unicode 14.0,
    CPython 3.11): on it the laws of normalization are proved for every
    string, and [PyStr] is proved to be its restriction to the code points
    below 256 ([normalize_of_string] below). *)

Module PyUnicode.

Local Open Scope N_scope.

Definition in_ranges (tbl : list (N * N)) (c : N) : bool :=
  existsb (fun r => (fst r <=? c) && (c <=? snd r)) tbl.

(** The code points with [ch.isspace()], which [strip] removes. *)
Definition whitespace_ranges : list (N * N) :=
  [(9, 13); (28, 32); (133, 133); (160, 160); (5760, 5760); (8192, 8202);
   (8232, 8233); (8239, 8239); (8287, 8287); (12288, 12288)].

Definition isspace (c : N) : bool := in_ranges whitespace_ranges c.

(** The property Case_Ignorable. *)
Definition case_ignorable_ranges : list (N * N) :=
  [(39, 39); (46, 46); (58, 58); (94, 94); (96, 96);
   (168, 168); (173, 173); (175, 175); (180, 180); (183, 184);
   (688, 879); (884, 885); (890, 890); (900, 901); (903, 903);
   (1155, 1161); (1369, 1369); (1375, 1375); (1425, 1469); (1471, 1471);
   (1473, 1474); (1476, 1477); (1479, 1479); (1524, 1524); (1536, 1541);
   (1552, 1562); (1564, 1564); (1600, 1600); (1611, 1631); (1648, 1648);
   (1750, 1757); (1759, 1768); (1770, 1773); (1807, 1807); (1809, 1809);
   (1840, 1866); (1958, 1968); (2027, 2037); (2042, 2042); (2045, 2045);
   (2070, 2093); (2137, 2139); (2184, 2184); (2192, 2193); (2200, 2207);
   (2249, 2306); (2362, 2362); (2364, 2364); (2369, 2376); (2381, 2381);
   (2385, 2391); (2402, 2403); (2417, 2417); (2433, 2433); (2492, 2492);
   (2497, 2500); (2509, 2509); (2530, 2531); (2558, 2558); (2561, 2562);
   (2620, 2620); (2625, 2626); (2631, 2632); (2635, 2637); (2641, 2641);
   (2672, 2673); (2677, 2677); (2689, 2690); (2748, 2748); (2753, 2757);
   (2759, 2760); (2765, 2765); (2786, 2787); (2810, 2815); (2817, 2817);
   (2876, 2876); (2879, 2879); (2881, 2884); (2893, 2893); (2901, 2902);
   (2914, 2915); (2946, 2946); (3008, 3008); (3021, 3021); (3072, 3072);
   (3076, 3076); (3132, 3132); (3134, 3136); (3142, 3144); (3146, 3149);
   (3157, 3158); (3170, 3171); (3201, 3201); (3260, 3260); (3263, 3263);
   (3270, 3270); (3276, 3277); (3298, 3299); (3328, 3329); (3387, 3388);
   (3393, 3396); (3405, 3405); (3426, 3427); (3457, 3457); (3530, 3530);
   (3538, 3540); (3542, 3542); (3633, 3633); (3636, 3642); (3654, 3662);
   (3761, 3761); (3764, 3772); (3782, 3782); (3784, 3789); (3864, 3865);
   (3893, 3893); (3895, 3895); (3897, 3897); (3953, 3966); (3968, 3972);
   (3974, 3975); (3981, 3991); (3993, 4028); (4038, 4038); (4141, 4144);
   (4146, 4151); (4153, 4154); (4157, 4158); (4184, 4185); (4190, 4192);
   (4209, 4212); (4226, 4226); (4229, 4230); (4237, 4237); (4253, 4253);
   (4348, 4348); (4957, 4959); (5906, 5908); (5938, 5939); (5970, 5971);
   (6002, 6003); (6068, 6069); (6071, 6077); (6086, 6086); (6089, 6099);
   (6103, 6103); (6109, 6109); (6155, 6159); (6211, 6211); (6277, 6278);
   (6313, 6313); (6432, 6434); (6439, 6440); (6450, 6450); (6457, 6459);
   (6679, 6680); (6683, 6683); (6742, 6742); (6744, 6750); (6752, 6752);
   (6754, 6754); (6757, 6764); (6771, 6780); (6783, 6783); (6823, 6823);
   (6832, 6862); (6912, 6915); (6964, 6964); (6966, 6970); (6972, 6972);
   (6978, 6978); (7019, 7027); (7040, 7041); (7074, 7077); (7080, 7081);
   (7083, 7085); (7142, 7142); (7144, 7145); (7149, 7149); (7151, 7153);
   (7212, 7219); (7222, 7223); (7288, 7293); (7376, 7378); (7380, 7392);
   (7394, 7400); (7405, 7405); (7412, 7412); (7416, 7417); (7468, 7530);
   (7544, 7544); (7579, 7679); (8125, 8125); (8127, 8129); (8141, 8143);
   (8157, 8159); (8173, 8175); (8189, 8190); (8203, 8207); (8216, 8217);
   (8228, 8228); (8231, 8231); (8234, 8238); (8288, 8292); (8294, 8303);
   (8305, 8305); (8319, 8319); (8336, 8348); (8400, 8432); (11388, 11389);
   (11503, 11505); (11631, 11631); (11647, 11647); (11744, 11775); (11823, 11823);
   (12293, 12293); (12330, 12333); (12337, 12341); (12347, 12347); (12441, 12446);
   (12540, 12542); (40981, 40981); (42232, 42237); (42508, 42508); (42607, 42610);
   (42612, 42621); (42623, 42623); (42652, 42655); (42736, 42737); (42752, 42785);
   (42864, 42864); (42888, 42890); (42994, 42996); (43000, 43001); (43010, 43010);
   (43014, 43014); (43019, 43019); (43045, 43046); (43052, 43052); (43204, 43205);
   (43232, 43249); (43263, 43263); (43302, 43309); (43335, 43345); (43392, 43394);
   (43443, 43443); (43446, 43449); (43452, 43453); (43471, 43471); (43493, 43494);
   (43561, 43566); (43569, 43570); (43573, 43574); (43587, 43587); (43596, 43596);
   (43632, 43632); (43644, 43644); (43696, 43696); (43698, 43700); (43703, 43704);
   (43710, 43711); (43713, 43713); (43741, 43741); (43756, 43757); (43763, 43764);
   (43766, 43766); (43867, 43871); (43881, 43883); (44005, 44005); (44008, 44008);
   (44013, 44013); (64286, 64286); (64434, 64450); (65024, 65039); (65043, 65043);
   (65056, 65071); (65106, 65106); (65109, 65109); (65279, 65279); (65287, 65287);
   (65294, 65294); (65306, 65306); (65342, 65342); (65344, 65344); (65392, 65392);
   (65438, 65439); (65507, 65507); (65529, 65531); (66045, 66045); (66272, 66272);
   (66422, 66426); (67456, 67461); (67463, 67504); (67506, 67514); (68097, 68099);
   (68101, 68102); (68108, 68111); (68152, 68154); (68159, 68159); (68325, 68326);
   (68900, 68903); (69291, 69292); (69446, 69456); (69506, 69509); (69633, 69633);
   (69688, 69702); (69744, 69744); (69747, 69748); (69759, 69761); (69811, 69814);
   (69817, 69818); (69821, 69821); (69826, 69826); (69837, 69837); (69888, 69890);
   (69927, 69931); (69933, 69940); (70003, 70003); (70016, 70017); (70070, 70078);
   (70089, 70092); (70095, 70095); (70191, 70193); (70196, 70196); (70198, 70199);
   (70206, 70206); (70367, 70367); (70371, 70378); (70400, 70401); (70459, 70460);
   (70464, 70464); (70502, 70508); (70512, 70516); (70712, 70719); (70722, 70724);
   (70726, 70726); (70750, 70750); (70835, 70840); (70842, 70842); (70847, 70848);
   (70850, 70851); (71090, 71093); (71100, 71101); (71103, 71104); (71132, 71133);
   (71219, 71226); (71229, 71229); (71231, 71232); (71339, 71339); (71341, 71341);
   (71344, 71349); (71351, 71351); (71453, 71455); (71458, 71461); (71463, 71467);
   (71727, 71735); (71737, 71738); (71995, 71996); (71998, 71998); (72003, 72003);
   (72148, 72151); (72154, 72155); (72160, 72160); (72193, 72202); (72243, 72248);
   (72251, 72254); (72263, 72263); (72273, 72278); (72281, 72283); (72330, 72342);
   (72344, 72345); (72752, 72758); (72760, 72765); (72767, 72767); (72850, 72871);
   (72874, 72880); (72882, 72883); (72885, 72886); (73009, 73014); (73018, 73018);
   (73020, 73021); (73023, 73029); (73031, 73031); (73104, 73105); (73109, 73109);
   (73111, 73111); (73459, 73460); (78896, 78904); (92912, 92916); (92976, 92982);
   (92992, 92995); (94031, 94031); (94095, 94111); (94176, 94177); (94179, 94180);
   (110576, 110579); (110581, 110587); (110589, 110590); (113821, 113822); (113824, 113827);
   (118528, 118573); (118576, 118598); (119143, 119145); (119155, 119170); (119173, 119179);
   (119210, 119213); (119362, 119364); (121344, 121398); (121403, 121452); (121461, 121461);
   (121476, 121476); (121499, 121503); (121505, 121519); (122880, 122886); (122888, 122904);
   (122907, 122913); (122915, 122916); (122918, 122922); (123184, 123197); (123566, 123566);
   (123628, 123631); (125136, 125142); (125252, 125259); (127995, 127999); (917505, 917505);
   (917536, 917631); (917760, 917999)].

Definition is_case_ignorable (c : N) : bool :=
  in_ranges case_ignorable_ranges c.

(** The property Cased. *)
Definition cased_ranges : list (N * N) :=
  [(65, 90); (97, 122); (170, 170); (181, 181); (186, 186);
   (192, 214); (216, 246); (248, 442); (444, 447); (452, 659);
   (661, 696); (704, 705); (736, 740); (837, 837); (880, 883);
   (886, 887); (890, 893); (895, 895); (902, 902); (904, 906);
   (908, 908); (910, 929); (931, 1013); (1015, 1153); (1162, 1327);
   (1329, 1366); (1376, 1416); (4256, 4293); (4295, 4295); (4301, 4301);
   (4304, 4346); (4349, 4351); (5024, 5109); (5112, 5117); (7296, 7304);
   (7312, 7354); (7357, 7359); (7424, 7615); (7680, 7957); (7960, 7965);
   (7968, 8005); (8008, 8013); (8016, 8023); (8025, 8025); (8027, 8027);
   (8029, 8029); (8031, 8061); (8064, 8116); (8118, 8124); (8126, 8126);
   (8130, 8132); (8134, 8140); (8144, 8147); (8150, 8155); (8160, 8172);
   (8178, 8180); (8182, 8188); (8305, 8305); (8319, 8319); (8336, 8348);
   (8450, 8450); (8455, 8455); (8458, 8467); (8469, 8469); (8473, 8477);
   (8484, 8484); (8486, 8486); (8488, 8488); (8490, 8493); (8495, 8500);
   (8505, 8505); (8508, 8511); (8517, 8521); (8526, 8526); (8544, 8575);
   (8579, 8580); (9398, 9449); (11264, 11492); (11499, 11502); (11506, 11507);
   (11520, 11557); (11559, 11559); (11565, 11565); (42560, 42605); (42624, 42653);
   (42786, 42887); (42891, 42894); (42896, 42954); (42960, 42961); (42963, 42963);
   (42965, 42969); (42997, 42998); (43000, 43002); (43824, 43866); (43868, 43880);
   (43888, 43967); (64256, 64262); (64275, 64279); (65313, 65338); (65345, 65370);
   (66560, 66639); (66736, 66771); (66776, 66811); (66928, 66938); (66940, 66954);
   (66956, 66962); (66964, 66965); (66967, 66977); (66979, 66993); (66995, 67001);
   (67003, 67004); (67456, 67456); (67459, 67461); (67463, 67504); (67506, 67514);
   (68736, 68786); (68800, 68850); (71840, 71903); (93760, 93823); (119808, 119892);
   (119894, 119964); (119966, 119967); (119970, 119970); (119973, 119974); (119977, 119980);
   (119982, 119993); (119995, 119995); (119997, 120003); (120005, 120069); (120071, 120074);
   (120077, 120084); (120086, 120092); (120094, 120121); (120123, 120126); (120128, 120132);
   (120134, 120134); (120138, 120144); (120146, 120485); (120488, 120512); (120514, 120538);
   (120540, 120570); (120572, 120596); (120598, 120628); (120630, 120654); (120656, 120686);
   (120688, 120712); (120714, 120744); (120746, 120770); (120772, 120779); (122624, 122633);
   (122635, 122654); (125184, 125251); (127280, 127305); (127312, 127337); (127344, 127369)].

Definition is_cased (c : N) : bool := in_ranges cased_ranges c.

(** The one-character lowercase mappings, as arithmetic progressions
    [(lo, hi, step, target)]: the code point [lo + k * step], up to [hi],
    maps to [target + k * step]. *)
Definition lower_runs : list (N * N * N * N) :=
  [(65, 90, 1, 97); (192, 214, 1, 224); (216, 222, 1, 248);
   (256, 302, 2, 257); (306, 310, 2, 307); (313, 327, 2, 314);
   (330, 374, 2, 331); (376, 376, 1, 255); (377, 381, 2, 378);
   (385, 385, 1, 595); (386, 388, 2, 387); (390, 390, 1, 596);
   (391, 391, 1, 392); (393, 394, 1, 598); (395, 395, 1, 396);
   (398, 398, 1, 477); (399, 399, 1, 601); (400, 400, 1, 603);
   (401, 401, 1, 402); (403, 403, 1, 608); (404, 404, 1, 611);
   (406, 406, 1, 617); (407, 407, 1, 616); (408, 408, 1, 409);
   (412, 412, 1, 623); (413, 413, 1, 626); (415, 415, 1, 629);
   (416, 420, 2, 417); (422, 422, 1, 640); (423, 423, 1, 424);
   (425, 425, 1, 643); (428, 428, 1, 429); (430, 430, 1, 648);
   (431, 431, 1, 432); (433, 434, 1, 650); (435, 437, 2, 436);
   (439, 439, 1, 658); (440, 440, 1, 441); (444, 444, 1, 445);
   (452, 452, 1, 454); (453, 453, 1, 454); (455, 455, 1, 457);
   (456, 456, 1, 457); (458, 458, 1, 460); (459, 475, 2, 460);
   (478, 494, 2, 479); (497, 497, 1, 499); (498, 500, 2, 499);
   (502, 502, 1, 405); (503, 503, 1, 447); (504, 542, 2, 505);
   (544, 544, 1, 414); (546, 562, 2, 547); (570, 570, 1, 11365);
   (571, 571, 1, 572); (573, 573, 1, 410); (574, 574, 1, 11366);
   (577, 577, 1, 578); (579, 579, 1, 384); (580, 580, 1, 649);
   (581, 581, 1, 652); (582, 590, 2, 583); (880, 882, 2, 881);
   (886, 886, 1, 887); (895, 895, 1, 1011); (902, 902, 1, 940);
   (904, 906, 1, 941); (908, 908, 1, 972); (910, 911, 1, 973);
   (913, 929, 1, 945); (931, 939, 1, 963); (975, 975, 1, 983);
   (984, 1006, 2, 985); (1012, 1012, 1, 952); (1015, 1015, 1, 1016);
   (1017, 1017, 1, 1010); (1018, 1018, 1, 1019); (1021, 1023, 1, 891);
   (1024, 1039, 1, 1104); (1040, 1071, 1, 1072); (1120, 1152, 2, 1121);
   (1162, 1214, 2, 1163); (1216, 1216, 1, 1231); (1217, 1229, 2, 1218);
   (1232, 1326, 2, 1233); (1329, 1366, 1, 1377); (4256, 4293, 1, 11520);
   (4295, 4295, 1, 11559); (4301, 4301, 1, 11565); (5024, 5103, 1, 43888);
   (5104, 5109, 1, 5112); (7312, 7354, 1, 4304); (7357, 7359, 1, 4349);
   (7680, 7828, 2, 7681); (7838, 7838, 1, 223); (7840, 7934, 2, 7841);
   (7944, 7951, 1, 7936); (7960, 7965, 1, 7952); (7976, 7983, 1, 7968);
   (7992, 7999, 1, 7984); (8008, 8013, 1, 8000); (8025, 8031, 2, 8017);
   (8040, 8047, 1, 8032); (8072, 8079, 1, 8064); (8088, 8095, 1, 8080);
   (8104, 8111, 1, 8096); (8120, 8121, 1, 8112); (8122, 8123, 1, 8048);
   (8124, 8124, 1, 8115); (8136, 8139, 1, 8050); (8140, 8140, 1, 8131);
   (8152, 8153, 1, 8144); (8154, 8155, 1, 8054); (8168, 8169, 1, 8160);
   (8170, 8171, 1, 8058); (8172, 8172, 1, 8165); (8184, 8185, 1, 8056);
   (8186, 8187, 1, 8060); (8188, 8188, 1, 8179); (8486, 8486, 1, 969);
   (8490, 8490, 1, 107); (8491, 8491, 1, 229); (8498, 8498, 1, 8526);
   (8544, 8559, 1, 8560); (8579, 8579, 1, 8580); (9398, 9423, 1, 9424);
   (11264, 11311, 1, 11312); (11360, 11360, 1, 11361); (11362, 11362, 1, 619);
   (11363, 11363, 1, 7549); (11364, 11364, 1, 637); (11367, 11371, 2, 11368);
   (11373, 11373, 1, 593); (11374, 11374, 1, 625); (11375, 11375, 1, 592);
   (11376, 11376, 1, 594); (11378, 11378, 1, 11379); (11381, 11381, 1, 11382);
   (11390, 11391, 1, 575); (11392, 11490, 2, 11393); (11499, 11501, 2, 11500);
   (11506, 11506, 1, 11507); (42560, 42604, 2, 42561); (42624, 42650, 2, 42625);
   (42786, 42798, 2, 42787); (42802, 42862, 2, 42803); (42873, 42875, 2, 42874);
   (42877, 42877, 1, 7545); (42878, 42886, 2, 42879); (42891, 42891, 1, 42892);
   (42893, 42893, 1, 613); (42896, 42898, 2, 42897); (42902, 42920, 2, 42903);
   (42922, 42922, 1, 614); (42923, 42923, 1, 604); (42924, 42924, 1, 609);
   (42925, 42925, 1, 620); (42926, 42926, 1, 618); (42928, 42928, 1, 670);
   (42929, 42929, 1, 647); (42930, 42930, 1, 669); (42931, 42931, 1, 43859);
   (42932, 42946, 2, 42933); (42948, 42948, 1, 42900); (42949, 42949, 1, 642);
   (42950, 42950, 1, 7566); (42951, 42953, 2, 42952); (42960, 42960, 1, 42961);
   (42966, 42968, 2, 42967); (42997, 42997, 1, 42998); (65313, 65338, 1, 65345);
   (66560, 66599, 1, 66600); (66736, 66771, 1, 66776); (66928, 66964, 2, 66967);
   (66929, 66937, 2, 66968); (66941, 66953, 2, 66980); (66957, 66961, 2, 66996);
   (66965, 66965, 1, 67004); (68736, 68786, 1, 68800); (71840, 71871, 1, 71872);
   (93760, 93791, 1, 93792); (125184, 125217, 1, 125218)].

Definition expand_run (r : N * N * N * N) : list (N * N) :=
  let '(lo, hi, step, target) := r in
  map (fun k => (lo + N.of_nat k * step, target + N.of_nat k * step))
      (seq 0 (S (N.to_nat ((hi - lo) / step)))).

Definition lower_table : list (N * N) :=
  Eval vm_compute in flat_map expand_run lower_runs.

Fixpoint assoc (c : N) (tbl : list (N * N)) : option N :=
  match tbl with
  | [] => None
  | (a, b) :: tbl' => if a =? c then Some b else assoc c tbl'
  end.

(** The full lowercase mapping of one code point: U+0130 maps to two code
    points, a code point of the table to one, any other to itself. *)
Definition to_lower_full (c : N) : list N :=
  if c =? 304 then [105; 775]
  else match assoc c lower_table with
       | Some d => [d]
       | None => [c]
       end.

(** The first code point of [l] that is not case-ignorable. *)
Fixpoint skip_ignorable (l : list N) : option N :=
  match l with
  | [] => None
  | c :: l' => if is_case_ignorable c then skip_ignorable l' else Some c
  end.

(** A capital sigma is final when a cased code point comes before it, and
    none after it, case-ignorable code points apart.  [before] is the text
    before the sigma, nearest code point first. *)
Definition final_sigma (before after : list N) : bool :=
  match skip_ignorable before with
  | None => false
  | Some c =>
      is_cased c &&
      match skip_ignorable after with
      | None => true
      | Some d => negb (is_cased d)
      end
  end.

(** What [lower] writes for the code point [c] between [before] and
    [after]: U+03A3 becomes U+03C2 where it is final and U+03C3 elsewhere;
    any other code point gets its full mapping. *)
Definition lower_at (before : list N) (c : N) (after : list N) : list N :=
  if c =? 931 then [if final_sigma before after then 962 else 963]
  else to_lower_full c.

Fixpoint lower_from (before s : list N) : list N :=
  match s with
  | [] => []
  | c :: after => lower_at before c after ++ lower_from (c :: before) after
  end.

(** [s.lower()] *)
Definition lower (s : list N) : list N := lower_from [] s.

(** [s.lstrip()] *)
Fixpoint lstrip (s : list N) : list N :=
  match s with
  | [] => []
  | c :: s' => if isspace c then lstrip s' else s
  end.

Definition is_empty (s : list N) : bool :=
  match s with [] => true | _ :: _ => false end.

(** [s.rstrip()] *)
Fixpoint rstrip (s : list N) : list N :=
  match s with
  | [] => []
  | c :: s' =>
      let r := rstrip s' in
      if isspace c && is_empty r then [] else c :: r
  end.

(** [s.strip()] *)
Definition strip (s : list N) : list N := rstrip (lstrip s).

(** [s.strip().lower()], the expression of line 15. *)
Definition normalize (s : list N) : list N := lower (strip s).

(** Every code point of [s] is white space. *)
Definition blank (s : list N) : bool := forallb isspace s.

(** A code point that [lower] leaves alone wherever it stands, and that is
    no white space. *)
Definition settled (d : N) : bool :=
  negb (d =? 931) && negb (d =? 304) &&
  match assoc d lower_table with None => true | Some _ => false end &&
  negb (isspace d).

(** [lower] leaves [d] alone wherever it stands. *)
Definition fixed (d : N) : Prop := d <> 931 /\ to_lower_full d = [d].

(** [s] is empty or starts with a code point that is not white space. *)
Definition starts_solid (s : list N) : Prop :=
  match s with
  | [] => True
  | c :: _ => isspace c = false
  end.

(** The string of code points below 256 that a [string] stands for. *)
Fixpoint of_string (s : string) : list N :=
  match s with
  | EmptyString => []
  | String c s' => N_of_ascii c :: of_string s'
  end.

End PyUnicode.

(** ** The Python run time the script relies on *)

Module Py.
Import PyStr.

#[local] Set Warnings "-register-all".

(** What [json.load] can return.  A float is kept by its [repr]: the
    script never computes with one. *)
Inductive json : Type :=
| JNull
| JBool (b : bool)
| JInt (n : Z)
| JFloat (repr : string)
| JStr (s : string)
| JList (l : list json)
| JDict (m : gmap string json).

(** An existing path as lines 6-7 find it: one that [open] refuses (a
    directory, a file without read permission), bytes that are not UTF-8,
    text that is not JSON, JSON nested deeper than the interpreter
    recurses, JSON with an integer literal longer than the interpreter
    converts, or text that [json.load] decodes to [v]. *)
Inductive file : Type :=
| Unreadable
| NotUtf8
| Malformed
| TooDeep
| HugeInt
| Json (v : json).

Inductive exn : Type :=
| FileNotFoundError
| OSError
| UnicodeDecodeError
| JSONDecodeError
| RecursionError
| ValueError
| TypeError
| KeyError
| NameError
| EOFError.

(** What [open] and [json.load] make of an existing path: the exception
    they raise, or the value decoded. *)
Definition decode (f : file) : exn + json :=
  match f with
  | Unreadable => inl OSError
  | NotUtf8 => inl UnicodeDecodeError
  | Malformed => inl JSONDecodeError
  | TooDeep => inl RecursionError
  | HugeInt => inl ValueError
  | Json v => inr v
  end.

(** What reaches the standard output: the prompt of an [input] call, or a
    [print] call with its arguments as objects. *)
Inductive event : Type :=
| Prompt (s : string)
| Print (args : list json).

Record state : Type := State {
  files : gmap string file;   (* path -> content *)
  stdin : list string;        (* the lines still to be read *)
  stdout : list event;
  brain : option json         (* the global [brain]; [None] while unbound *)
}.

(** The outcome of running statements: normal completion, an exception
    that propagates, or the step budget of a loop used up. *)
Inductive res (A : Type) : Type :=
| Ret (a : A) (st : state)
| Raise (e : exn) (st : state)
| OutOfFuel (st : state).
Arguments Ret {A} a st.
Arguments Raise {A} e st.
Arguments OutOfFuel {A} st.

Definition M (A : Type) : Type := state -> res A.

Definition ret {A} (a : A) : M A := fun st => Ret a st.

Definition raise {A} (e : exn) : M A := fun st => Raise e st.

Definition bind {A B} (m : M A) (k : A -> M B) : M B :=
  fun st =>
    match m st with
    | Ret a st' => k a st'
    | Raise e st' => Raise e st'
    | OutOfFuel st' => OutOfFuel st'
    end.

Declare Scope py_scope.
Delimit Scope py_scope with py.
Notation "x <- m ;; k" := (bind m (fun x => k))
  (at level 20, m at level 99, k at level 200, only parsing) : py_scope.
Notation "m ;; k" := (bind m (fun _ => k))
  (at level 100, k at level 200, right associativity, only parsing) : py_scope.
Local Open Scope py_scope.

(** The state in which a result leaves the process. *)
Definition final {A} (r : res A) : state :=
  match r with Ret _ st | Raise _ st | OutOfFuel st => st end.

(** The exit status of the interpreter: 0 when the script runs to its end,
    1 when an exception is not caught. *)
Definition exit_status {A} (r : res A) : option Z :=
  match r with
  | Ret _ _ => Some 0%Z
  | Raise _ _ => Some 1%Z
  | OutOfFuel _ => None
  end.

(** [os.path.exists(p)] *)
Definition os_path_exists (p : string) : M bool :=
  fun st => Ret (bool_decide (is_Some (files st !! p))) st.

(** [with open(p, 'r', encoding='utf-8') as f: json.load(f)] *)
Definition json_load (p : string) : M json :=
  fun st =>
    match files st !! p with
    | None => Raise FileNotFoundError st
    | Some f =>
        match decode f with
        | inl e => Raise e st
        | inr v => Ret v st
        end
    end.

(** [print(a, b, ...)] *)
Definition print (args : list json) : M unit :=
  fun st => Ret tt (State (files st) (stdin st) (stdout st ++ [Print args])%list (brain st)).

(** [input(prompt)]: the prompt is written, then a line is read; at the end
    of the input [EOFError] is raised. *)
Definition input (prompt : string) : M string :=
  fun st =>
    let out := (stdout st ++ [Prompt prompt])%list in
    match stdin st with
    | [] => Raise EOFError (State (files st) [] out (brain st))
    | line :: rest => Ret line (State (files st) rest out (brain st))
    end.

(** Reading and binding the global [brain]. *)
Definition get_brain : M json :=
  fun st => match brain st with Some v => Ret v st | None => Raise NameError st end.

Definition set_brain (v : json) : M unit :=
  fun st => Ret tt (State (files st) (stdin st) (stdout st) (Some v)).

(** [len(v)] *)
Definition len (v : json) : M Z :=
  match v with
  | JStr s => ret (Z.of_nat (String.length s))
  | JList l => ret (Z.of_nat (length l))
  | JDict m => ret (Z.of_nat (size m))
  | JNull | JBool _ | JInt _ | JFloat _ => raise TypeError
  end.

(** [x == v] for a [str] [x]: only an equal [str] is equal to it. *)
Definition eq_str (x : string) (v : json) : bool :=
  match v with JStr s => bool_decide (s = x) | _ => false end.

(** [x in s] for two [str]: [x] occurs in [s] as a substring. *)
Fixpoint occurs (x s : string) : bool :=
  String.prefix x s ||
  match s with
  | EmptyString => false
  | String _ s' => occurs x s'
  end.

(** [x in v] for a [str] [x]: a key of a [dict], an element of a [list], a
    substring of a [str]. *)
Definition contains (x : string) (v : json) : M bool :=
  match v with
  | JDict m => ret (bool_decide (is_Some (m !! x)))
  | JList l => ret (existsb (eq_str x) l)
  | JStr s => ret (occurs x s)
  | JNull | JBool _ | JInt _ | JFloat _ => raise TypeError
  end.

(** [v[k]] for a [str] [k]: only a [dict] is indexed by a [str]. *)
Definition getitem (v : json) (k : string) : M json :=
  match v with
  | JDict m => match m !! k with Some x => ret x | None => raise KeyError end
  | _ => raise TypeError
  end.

(** [v[k] = x] for a [str] [k]: the object after the assignment. *)
Definition setitem (v : json) (k : string) (x : json) : M json :=
  match v with
  | JDict m => ret (JDict (<[k:=x]> m))
  | _ => raise TypeError
  end.

End Py.

(** ** The script *)

Module Bot.
Import PyStr Py.
Local Open Scope py_scope.

(** Line 3 *)
Definition BRAIN : string := "chat_memory.json".

(** Lines 5-9: the table of the session is what the file decodes to, or an
    empty [dict] when there is no file. *)
Definition load : M unit :=
  found <- os_path_exists BRAIN ;;
  if (found : bool) then
    v <- json_load BRAIN ;;
    set_brain v
  else
    set_brain (JDict ∅).

(** Lines 5-12 *)
Definition startup : M unit :=
  load ;;
  b <- get_brain ;;
  n <- len b ;;
  print [JStr "Memories Loaded"; JInt n] ;;
  print [JStr "hey, teach me how to talk.  type quit to exit"].

(** How one pass through the body of [while True] ends: by [break], or by
    going round again ([continue], or the end of the body). *)
Inductive flow : Type := Break | Next.

(** Lines 15-27: one pass through the body of the loop. *)
Definition body : M flow :=
  raw <- input "You:" ;;
  let user := lower (strip raw) in
  if decide (lower user = "quit") then ret Break
  else
    b <- get_brain ;;
    known <- contains user b ;;
    if (known : bool) then
      b <- get_brain ;;
      reply <- getitem b user ;;
      print [JStr "Bot:"; reply] ;;
      ret Next
    else
      print [JStr "Bot: I don't know what to say"] ;;
      teach <- input "Can you teach me?" ;;
      b <- get_brain ;;
      b' <- setitem b user (JStr teach) ;;
      set_brain b' ;;
      print [JStr "Bot: Got it! I'll remember that"] ;;
      ret Next.

(** Line 14: [while True], with a budget of passes. *)
Fixpoint while_true (fuel : nat) : M unit :=
  match fuel with
  | O => fun st => OutOfFuel st
  | S fuel' =>
      f <- body ;;
      match f with
      | Break => ret tt
      | Next => while_true fuel'
      end
  end.

(** The whole script.  Every pass reads a line or ends the loop, so one
    pass more than there are lines is budget enough
    ([while_true_fuel] below). *)
Definition main : M unit :=
  startup ;;
  fun st => while_true (S (length (stdin st))) st.

(** A process started with the file system [fs] and the input [lines]. *)
Definition init (fs : gmap string file) (lines : list string) : state :=
  State fs lines [] None.

Definition run (fs : gmap string file) (lines : list string) : res unit :=
  main (init fs lines).

(** One pass that goes round again. *)
Definition iter (st st' : state) : Prop := body st = Ret Next st'.

(** [st] is a point of the session started with [fs] and [lines]: the state
    after start-up, or after some number of passes through the loop. *)
Definition session_point (fs : gmap string file) (lines : list string)
    (st : state) : Prop :=
  exists st0, startup (init fs lines) = Ret tt st0 /\ rtc iter st0 st.

(** Every key of the table is its own normalized form. *)
Definition keys_normalized (st : state) : Prop :=
  forall m k, brain st = Some (JDict m) -> is_Some (m !! k) -> normalize k = k.

(** The same, for the table in the storage file. *)
Definition stored_keys_normalized (fs : gmap string file) : Prop :=
  forall m k, fs !! BRAIN = Some (Json (JDict m)) -> is_Some (m !! k) ->
              normalize k = k.


(** The pass that starts at [st] comes to an [input] call with no line
    left: at the [You:] prompt, or at the teach prompt, after a last line
    that is not [quit] and is not found in [brain]. *)
Definition input_ends (st : state) : Prop :=
  stdin st = [] \/
  exists raw b,
    stdin st = [raw] /\ normalize raw <> "quit" /\
    brain st = Some b /\ contains (normalize raw) b st = Ret false st.

(** The two lines that start-up prints over a table of [n] entries. *)
Definition banner (n : nat) : list event :=
  [Print [JStr "Memories Loaded"; JInt (Z.of_nat n)];
   Print [JStr "hey, teach me how to talk.  type quit to exit"]].

(** Sample storage: an object with a key that is not normalized, an empty
    object, and an empty array. *)
Definition stale_store : gmap string file :=
  {[ BRAIN := Json (JDict {[ "Hello" := JStr "hi" ]}) ]}.

Definition empty_object_store : gmap string file :=
  {[ BRAIN := Json (JDict ∅) ]}.

Definition array_store : gmap string file :=
  {[ BRAIN := Json (JList []) ]}.

(** Two points of a sample session over a table that knows [hello]: before
    and after the pass that teaches [bye]. *)
Definition sample_before : state :=
  State ∅ ["Bye"; "see you"; "HELLO"; "  bye"] []
    (Some (JDict {[ "hello" := JStr "hi" ]})).

Definition sample_after : state :=
  State ∅ ["HELLO"; "  bye"]
    [Prompt "You:"; Print [JStr "Bot: I don't know what to say"];
     Prompt "Can you teach me?"; Print [JStr "Bot: Got it! I'll remember that"]]
    (Some (JDict (<["bye" := JStr "see you"]> {[ "hello" := JStr "hi" ]}))).

(** The point after [sample_after] at which [HELLO] has been answered. *)
Definition sample_later : state :=
  State ∅ ["  bye"]
    [Prompt "You:"; Print [JStr "Bot: I don't know what to say"];
     Prompt "Can you teach me?"; Print [JStr "Bot: Got it! I'll remember that"];
     Prompt "You:"; Print [JStr "Bot:"; JStr "hi"]]
    (Some (JDict (<["bye" := JStr "see you"]> {[ "hello" := JStr "hi" ]}))).

(** [more] further lines arrive on the standard input after those of [st]. *)
Definition feed (more : list string) (st : state) : state :=
  State (files st) (stdin st ++ more) (stdout st) (brain st).

(** The JSON values without a length: [None], a [bool], an [int], a
    [float]. *)
Definition scalar (v : json) : bool :=
  match v with
  | JNull | JBool _ | JInt _ | JFloat _ => true
  | JStr _ | JList _ | JDict _ => false
  end.


End Bot.

Import PyStr Py Bot.
Local Open Scope py_scope.

(** ** Facts about [strip] and [lower] *)

Section StrFacts.

Local Ltac by_char c := destruct c as [[] [] [] [] [] [] [] []]; reflexivity.

Lemma lower_char_idem c : lower_char (lower_char c) = lower_char c.
Proof. by_char c. Qed.

Lemma isspace_lower_char c : isspace (lower_char c) = isspace c.
Proof. by_char c. Qed.

Lemma lower_idem s : lower (lower s) = lower s.
Proof.
  induction s as [|c s IH]; simpl; [reflexivity|].
  now rewrite lower_char_idem, IH.
Qed.

Lemma is_empty_lower s : is_empty (lower s) = is_empty s.
Proof. now destruct s. Qed.

Lemma lstrip_lower s : lstrip (lower s) = lower (lstrip s).
Proof.
  induction s as [|c s IH]; simpl; [reflexivity|].
  rewrite isspace_lower_char. now destruct (isspace c).
Qed.

Lemma rstrip_lower s : rstrip (lower s) = lower (rstrip s).
Proof.
  induction s as [|c s IH]; simpl; [reflexivity|].
  rewrite isspace_lower_char, IH, is_empty_lower.
  now destruct (isspace c && is_empty (rstrip s)).
Qed.

Lemma strip_lower s : strip (lower s) = lower (strip s).
Proof. unfold strip. now rewrite lstrip_lower, rstrip_lower. Qed.

Lemma lstrip_starts_solid s : starts_solid (lstrip s).
Proof.
  induction s as [|c s IH]; simpl; [exact I|].
  destruct (isspace c) eqn:E; [exact IH | exact E].
Qed.

Lemma lstrip_solid s : starts_solid s -> lstrip s = s.
Proof. destruct s as [|c s]; simpl; [reflexivity|]. now intros ->. Qed.

Lemma rstrip_starts_solid s : starts_solid s -> starts_solid (rstrip s).
Proof.
  destruct s as [|c s]; simpl; [exact id|].
  intros E. rewrite E. exact E.
Qed.

Lemma rstrip_idem s : rstrip (rstrip s) = rstrip s.
Proof.
  induction s as [|c s IH]; simpl; [reflexivity|].
  destruct (isspace c && is_empty (rstrip s)) eqn:E; simpl; [reflexivity|].
  now rewrite IH, E.
Qed.

Lemma strip_idem s : strip (strip s) = strip s.
Proof.
  unfold strip.
  rewrite (lstrip_solid (rstrip (lstrip s))).
  - apply rstrip_idem.
  - apply rstrip_starts_solid, lstrip_starts_solid.
Qed.

Lemma normalize_strip_fixed s : strip (normalize s) = normalize s.
Proof. unfold normalize. now rewrite strip_lower, strip_idem. Qed.

Lemma lstrip_blank s : blank s = true -> lstrip s = EmptyString.
Proof.
  induction s as [|c s IH]; simpl; [reflexivity|].
  destruct (isspace c); simpl; [exact IH | discriminate].
Qed.

Lemma blank_lstrip s : lstrip s = EmptyString -> blank s = true.
Proof.
  induction s as [|c s IH]; simpl; [reflexivity|].
  destruct (isspace c); simpl; [exact IH | discriminate].
Qed.

Lemma rstrip_empty s : starts_solid s -> rstrip s = EmptyString -> s = EmptyString.
Proof.
  destruct s as [|c s]; simpl; [reflexivity|].
  intros ->. discriminate.
Qed.

Lemma lower_empty s : lower s = EmptyString -> s = EmptyString.
Proof. now destruct s. Qed.

(** A line normalizes to the empty string exactly when it is blank. *)
Lemma normalize_empty_iff s : normalize s = EmptyString <-> blank s = true.
Proof.
  unfold normalize, strip. split.
  - intros H. apply lower_empty in H.
    apply rstrip_empty in H; [|apply lstrip_starts_solid].
    now apply blank_lstrip.
  - intros H. now rewrite (lstrip_blank _ H).
Qed.

Lemma lower_normalize s : lower (normalize s) = normalize s.
Proof. apply lower_idem. Qed.

Lemma normalize_idem s : normalize (normalize s) = normalize s.
Proof.
  unfold normalize at 1.
  now rewrite normalize_strip_fixed, lower_normalize.
Qed.

End StrFacts.

(** ** One pass through the loop, case by case *)

Ltac unfold_py :=
  unfold bind, input, get_brain, contains, getitem, setitem, set_brain,
    print, ret, raise, os_path_exists, json_load, len in *.

Ltac fold_normalize :=
  repeat match goal with
         | |- context [lower (strip ?x)] =>
             change (lower (strip x)) with (normalize x)
         end;
  rewrite ?lower_normalize.

Section BodyCases.

Variables (st : state) (raw : string) (rest : list string).
Hypothesis Hin : stdin st = raw :: rest.

Lemma body_quit :
  normalize raw = "quit" ->
  body st =
    Ret Break (State (files st) rest (stdout st ++ [Prompt "You:"])%list
                 (brain st)).
Proof using Hin.
  intros Hq. unfold body. unfold_py. rewrite Hin. fold_normalize.
  now rewrite Hq.
Qed.

Lemma body_known m v :
  normalize raw <> "quit" ->
  brain st = Some (JDict m) ->
  m !! normalize raw = Some v ->
  body st =
    Ret Next (State (files st) rest
                (stdout st ++ [Prompt "You:"; Print [JStr "Bot:"; v]])%list
                (brain st)).
Proof using Hin.
  intros Hq Hb Hv. unfold body. unfold_py. rewrite Hin. fold_normalize.
  destruct (decide (normalize raw = "quit")) as [|_]; [done|].
  simpl. rewrite Hb. simpl. rewrite !Hv.
  rewrite bool_decide_eq_true_2 by eauto. simpl. rewrite Hv. simpl.
  now rewrite <- app_assoc.
Qed.

Lemma body_teach m teach rest' :
  normalize raw <> "quit" ->
  brain st = Some (JDict m) ->
  m !! normalize raw = None ->
  rest = teach :: rest' ->
  body st =
    Ret Next (State (files st) rest'
                (stdout st ++ [Prompt "You:";
                               Print [JStr "Bot: I don't know what to say"];
                               Prompt "Can you teach me?";
                               Print [JStr "Bot: Got it! I'll remember that"]])%list
                (Some (JDict (<[normalize raw := JStr teach]> m)))).
Proof using Hin.
  intros Hq Hb Hv ->. unfold body. unfold_py. rewrite Hin. fold_normalize.
  destruct (decide (normalize raw = "quit")) as [|_]; [done|].
  simpl. rewrite Hb. simpl. rewrite !Hv.
  rewrite bool_decide_eq_false_2 by (intros [? ?]; discriminate). simpl.
  now rewrite <- !app_assoc.
Qed.

Lemma body_teach_eof m :
  normalize raw <> "quit" ->
  brain st = Some (JDict m) ->
  m !! normalize raw = None ->
  rest = [] ->
  body st =
    Raise EOFError
      (State (files st) []
         (stdout st ++ [Prompt "You:";
                        Print [JStr "Bot: I don't know what to say"];
                        Prompt "Can you teach me?"])%list
         (brain st)).
Proof using Hin.
  intros Hq Hb Hv ->. unfold body. unfold_py. rewrite Hin. fold_normalize.
  destruct (decide (normalize raw = "quit")) as [|_]; [done|].
  simpl. rewrite Hb. simpl. rewrite !Hv.
  rewrite bool_decide_eq_false_2 by (intros [? ?]; discriminate). simpl.
  now rewrite <- !app_assoc.
Qed.

End BodyCases.

Lemma body_eof st :
  stdin st = [] ->
  body st =
    Raise EOFError
      (State (files st) [] (stdout st ++ [Prompt "You:"])%list (brain st)).
Proof. intros Hin. unfold body. unfold_py. now rewrite Hin. Qed.

(** Whatever [brain] holds, a pass ends in one of four ways; none writes a
    file, and going round again takes at least one line. *)
Lemma body_spec st :
  match body st with
  | Ret Break st' =>
      exists raw, stdin st = raw :: stdin st' /\ normalize raw = "quit" /\
                  files st' = files st /\ brain st' = brain st
  | Ret Next st' =>
      exists raw, normalize raw <> "quit" /\ files st' = files st /\
                  (stdin st = raw :: stdin st' \/
                   exists teach, stdin st = raw :: teach :: stdin st')
  | Raise e st' => files st' = files st /\ brain st' = brain st
  | OutOfFuel _ => False
  end.
Proof.
  unfold body. unfold_py.
  destruct (stdin st) as [|raw rest] eqn:Hin; simpl; [done|].
  fold_normalize.
  destruct (decide (normalize raw = "quit")) as [Hq|Hq]; [by exists raw|].
  destruct (brain st) as [b|] eqn:Hb; simpl; [|done].
  destruct b; simpl; try done.
  all: destruct rest as [|teach rest']; simpl.
  all: repeat match goal with
         | |- context [if ?c then _ else _] => destruct c eqn:?; simpl
         | |- context [match ?m !! ?k with _ => _ end] =>
             destruct (m !! k) eqn:?; simpl
         end.
  all: try done.
  all: exists raw; eauto 10.
Qed.

(** The table after a pass: untouched, or extended at a phrase it did not
    hold with the line typed at the teach prompt. *)
Lemma body_brain st :
  brain (final (body st)) = brain st \/
  exists m raw teach,
    brain st = Some (JDict m) /\ m !! normalize raw = None /\
    brain (final (body st)) = Some (JDict (<[normalize raw := JStr teach]> m)).
Proof.
  unfold body. unfold_py.
  destruct (stdin st) as [|raw rest] eqn:Hin; simpl; [by left|].
  fold_normalize.
  destruct (decide (normalize raw = "quit")) as [Hq|Hq]; [by left|].
  destruct (brain st) as [b|] eqn:Hb; simpl; [|by left].
  destruct b; simpl; try by left.
  all: destruct rest as [|teach rest']; simpl.
  all: repeat match goal with
         | |- context [if ?c then _ else _] => destruct c eqn:?; simpl
         | |- context [match ?m !! ?k with _ => _ end] =>
             destruct (m !! k) eqn:Hk; simpl
         end.
  all: try by left.
  right. exists m, raw, teach. split; [done|]. split; [|done].
  apply bool_decide_eq_false in Heqb.
  destruct (m !! normalize raw) eqn:E; [|done]. destruct Heqb; eauto.
Qed.

(** ** Start-up *)

Lemma load_spec st :
  load st =
    match files st !! BRAIN with
    | None => Ret tt (State (files st) (stdin st) (stdout st) (Some (JDict ∅)))
    | Some f =>
        match decode f with
        | inl e => Raise e st
        | inr v => Ret tt (State (files st) (stdin st) (stdout st) (Some v))
        end
    end.
Proof.
  unfold load. unfold_py.
  destruct (files st !! BRAIN) as [f|] eqn:E; simpl; rewrite ?E; [|done].
  by destruct (decode f).
Qed.



Lemma startup_error fs lines f e :
  fs !! BRAIN = Some f -> decode f = inl e ->
  startup (init fs lines) = Raise e (init fs lines).
Proof.
  intros E Hd. unfold startup, bind. rewrite load_spec. simpl.
  now rewrite E, Hd.
Qed.

(** Start-up reads no line and writes no file; the table it leaves is the
    empty one or the value in the storage file. *)
Lemma startup_spec fs lines :
  let r := startup (init fs lines) in
  files (final r) = fs /\ stdin (final r) = lines /\
  (forall st, r <> OutOfFuel st) /\
  (forall st, r = Ret tt st ->
     brain st = Some (JDict ∅) /\ fs !! BRAIN = None \/
     exists v, brain st = Some v /\ fs !! BRAIN = Some (Json v)).
Proof.
  unfold startup, bind. rewrite load_spec. simpl.
  destruct (fs !! BRAIN) as [[| | | | |v]|] eqn:E; simpl.
  1-5: by repeat split.
  - destruct v; simpl; repeat split; try done.
    all: intros st [= <-]; right; eauto.
  - repeat split; try done. intros st [= <-]. by left.
Qed.

(** ** The loop *)

Lemma while_true_files n : forall st, files (final (while_true n st)) = files st.
Proof.
  induction n as [|n IH]; intros st; simpl; [done|].
  unfold bind. pose proof (body_spec st) as Hb.
  destruct (body st) as [[|] st'|e st'|st']; simpl; try done.
  - by destruct Hb as (_ & _ & _ & ? & _).
  - rewrite IH. by destruct Hb as (_ & _ & ? & _).
  - by destruct Hb.
Qed.

(** A budget above the number of lines left is never used up, and the
    outcome does not depend on it. *)
Lemma while_true_fuel n : forall n' st,
  length (stdin st) < n -> length (stdin st) < n' ->
  while_true n st = while_true n' st /\
  forall st', while_true n st <> OutOfFuel st'.
Proof.
  induction n as [|n IH]; intros n' st Hn Hn'; [lia|].
  destruct n' as [|n']; [lia|]. simpl. unfold bind.
  pose proof (body_spec st) as Hb.
  destruct (body st) as [[|] st'|e st'|st']; simpl; try done.
  destruct Hb as (raw & _ & _ & Hlen).
  apply IH.
  all: destruct Hlen as [E|[teach E]]; rewrite E in *; simpl in *; lia.
Qed.

(** The loop is left normally only through a line that normalizes to
    [quit]. *)
Lemma while_true_ret n : forall st st',
  while_true n st = Ret tt st' ->
  exists raw, raw ∈ stdin st /\ normalize raw = "quit".
Proof.
  induction n as [|n IH]; intros st st'; simpl; [done|].
  unfold bind. pose proof (body_spec st) as Hb.
  destruct (body st) as [[|] st1|e st1|st1]; simpl; try done.
  - intros _. destruct Hb as (raw & E & Hq & _).
    exists raw. rewrite E. split; [constructor | done].
  - intros H. apply IH in H as (raw & Hin & Hq).
    destruct Hb as (raw0 & _ & _ & [E|[teach E]]); exists raw; rewrite E.
    + split; [by constructor | done].
    + split; [by do 2 constructor | done].
Qed.

(** Over a table, input without a [quit] line runs into [EOFError]. *)
Lemma while_true_eof n : forall st m,
  brain st = Some (JDict m) ->
  Forall (fun l => normalize l <> "quit") (stdin st) ->
  length (stdin st) < n ->
  exists st', while_true n st = Raise EOFError st'.
Proof.
  induction n as [|n IH]; intros st m Hb Hnq Hn; [lia|].
  simpl. unfold bind.
  destruct (stdin st) as [|raw rest] eqn:Hin.
  { rewrite body_eof by done. eauto. }
  apply Forall_cons in Hnq as [Hq Hrest]. simpl in Hn.
  destruct (m !! normalize raw) as [v|] eqn:Hv.
  - rewrite (body_known st raw rest Hin m v) by done.
    eapply IH; simpl; [done..|lia].
  - destruct rest as [|teach rest'].
    + rewrite (body_teach_eof st raw [] Hin m) by done. eauto.
    + rewrite (body_teach st raw _ Hin m teach rest') by done.
      apply Forall_cons in Hrest as [_ Hrest].
      eapply IH; simpl in *; [done..|lia].
Qed.

(** ** The whole run *)

Lemma run_files fs lines : files (final (run fs lines)) = fs.
Proof.
  unfold run, main, bind.
  pose proof (startup_spec fs lines) as (Hf & _). simpl in Hf.
  destruct (startup (init fs lines)) as [[] st|e st|st]; try done.
  cbv beta. by rewrite while_true_files.
Qed.

Lemma run_total fs lines : exit_status (run fs lines) <> None.
Proof.
  unfold run, main, bind.
  pose proof (startup_spec fs lines) as (_ & _ & Hfuel & _). simpl in Hfuel.
  destruct (startup (init fs lines)) as [[] st|e st|st]; try done.
  - pose proof (while_true_fuel (S (length (stdin st))) (S (length (stdin st)))
                  st ltac:(lia) ltac:(lia)) as [_ H].
    cbv beta. destruct (while_true _ st) as [| |st'] eqn:E; try done.
    by destruct (H st').
  - by destruct (Hfuel st).
Qed.

Lemma run_status0 fs lines :
  exit_status (run fs lines) = Some 0%Z ->
  exists raw, raw ∈ lines /\ normalize raw = "quit".
Proof.
  unfold run, main, bind.
  pose proof (startup_spec fs lines) as (_ & Hin & _). simpl in Hin.
  destruct (startup (init fs lines)) as [[] st|e st|st]; try done.
  cbv beta. simpl in Hin.
  destruct (while_true _ st) as [[] st'|e st'|st'] eqn:E; try done.
  intros _. rewrite <- Hin. by apply while_true_ret in E.
Qed.

(** ** What the passes of a session do to the table *)

Lemma iter_brain st st' m :
  iter st st' -> brain st = Some (JDict m) ->
  exists m', brain st' = Some (JDict m') /\
    (m' = m \/ exists raw teach, m !! normalize raw = None /\
                                 m' = <[normalize raw := JStr teach]> m).
Proof.
  unfold iter. intros Hbody Hb.
  destruct (body_brain st) as [E|(m0 & raw & teach & E0 & Hk & E)];
    rewrite Hbody in E; simpl in E.
  - exists m. split; [congruence | by left].
  - assert (m0 = m) as -> by congruence.
    exists (<[normalize raw := JStr teach]> m). split; [done|]. right. eauto.
Qed.

(** Entries are never lost or changed along a session. *)
Lemma session_grows st st' m :
  rtc iter st st' -> brain st = Some (JDict m) ->
  exists m', brain st' = Some (JDict m') /\ m ⊆ m'.
Proof.
  intros Hrtc. revert m.
  induction Hrtc as [st|st st1 st' Hstep _ IH]; intros m Hb.
  - by exists m.
  - destruct (iter_brain _ _ _ Hstep Hb) as (m1 & Hb1 & Hm1).
    destruct (IH _ Hb1) as (m' & Hb' & Hsub). exists m'. split; [done|].
    etrans; [|exact Hsub].
    destruct Hm1 as [->|(raw & teach & Hk & ->)]; [done|].
    by apply insert_subseteq.
Qed.

Lemma iter_keys_normalized st st' :
  iter st st' -> keys_normalized st -> keys_normalized st'.
Proof.
  unfold iter. intros Hbody Hinv m' k Hb' Hk.
  destruct (body_brain st) as [E|(m0 & raw & teach & E0 & Hnone & E)];
    rewrite Hbody in E; simpl in E.
  - apply (Hinv m' k); [congruence | done].
  - assert (m' = <[normalize raw := JStr teach]> m0) as -> by congruence.
    destruct (decide (normalize raw = k)) as [<-|Hne].
    + apply normalize_idem.
    + rewrite lookup_insert_ne in Hk by done. by apply (Hinv m0 k).
Qed.

(** ** Facts about full strings *)

Module PyUnicodeFacts.
Import PyUnicode.
Local Open Scope list_scope.
Local Open Scope N_scope.

Lemma lower_table_settled :
  forallb (fun p => settled (snd p)) lower_table = true.
Proof. vm_compute. reflexivity. Qed.

Lemma assoc_In c d tbl : assoc c tbl = Some d -> In (c, d) tbl.
Proof.
  induction tbl as [|[a b] tbl IH]; simpl; [discriminate|].
  destruct (a =? c) eqn:E.
  - intros [= ->]. apply N.eqb_eq in E as ->. now left.
  - intros H. right. exact (IH H).
Qed.

Lemma settled_spec d : settled d = true -> fixed d /\ isspace d = false.
Proof.
  unfold settled, fixed, to_lower_full.
  intros H. repeat (apply andb_prop in H as [H ?]).
  apply negb_true_iff in H as H931.
  match goal with H' : negb (d =? 304) = true |- _ =>
    apply negb_true_iff in H' as H304 end.
  match goal with H' : negb (isspace d) = true |- _ =>
    apply negb_true_iff in H' as Hsp end.
  rewrite H304. destruct (assoc d lower_table); [discriminate|].
  split; [|exact Hsp]. split; [|reflexivity].
  intros ->. discriminate.
Qed.

Lemma assoc_settled c d : assoc c lower_table = Some d -> settled d = true.
Proof.
  intros H%assoc_In.
  pose proof lower_table_settled as Ht.
  rewrite forallb_forall in Ht. exact (Ht (c, d) H).
Qed.

(** What [lower] writes for one code point is never empty, is left alone by
    a second [lower], and has no white space unless the code point is
    white space itself. *)
Lemma lower_at_spec before c after :
  lower_at before c after <> [] /\
  Forall fixed (lower_at before c after) /\
  (isspace c = false ->
   Forall (fun d => isspace d = false) (lower_at before c after)).
Proof.
  unfold lower_at. destruct (c =? 931) eqn:Hsigma.
  { destruct (final_sigma before after).
    - split; [discriminate|]. split; [|intros _]; repeat constructor;
        try (intros; discriminate); reflexivity.
    - split; [discriminate|]. split; [|intros _]; repeat constructor;
        try (intros; discriminate); reflexivity. }
  unfold to_lower_full. destruct (c =? 304) eqn:Hdot.
  { split; [discriminate|]. split; [|intros _]; repeat constructor;
      try (intros; discriminate); reflexivity. }
  destruct (assoc c lower_table) as [d|] eqn:Hc.
  - destruct (settled_spec d (assoc_settled c d Hc)) as [Hfix Hsp].
    split; [discriminate|].
    split; [|intros _]; (constructor; [assumption | constructor]).
  - split; [discriminate|].
    split; [|intros Hsp; constructor; [assumption | constructor]].
    constructor; [|constructor]. split.
    + intros ->. discriminate.
    + unfold to_lower_full. now rewrite Hdot, Hc.
Qed.

Lemma lower_from_fixed s : forall before, Forall fixed (lower_from before s).
Proof.
  induction s as [|c s IH]; intros before; simpl; [constructor|].
  apply Forall_app. split; [apply lower_at_spec | apply IH].
Qed.

Lemma lower_from_id s : forall before, Forall fixed s -> lower_from before s = s.
Proof.
  induction s as [|d s IH]; intros before Hs; simpl; [reflexivity|].
  apply Forall_cons in Hs as [[Hd Hfix] Hs].
  unfold lower_at. apply N.eqb_neq in Hd. rewrite Hd, Hfix. simpl.
  now rewrite IH.
Qed.

Lemma ulower_idem s : lower (lower s) = lower s.
Proof. apply lower_from_id, lower_from_fixed. Qed.

Lemma lower_from_nonempty c s before : lower_from before (c :: s) <> [].
Proof.
  simpl. destruct (lower_at_spec before c s) as [Hne _].
  destruct (lower_at before c s); [done|discriminate].
Qed.

Lemma ulstrip_starts_solid s : starts_solid (lstrip s).
Proof.
  induction s as [|c s IH]; simpl; [exact I|].
  destruct (isspace c) eqn:E; [exact IH | exact E].
Qed.

Lemma ulstrip_solid s : starts_solid s -> lstrip s = s.
Proof. destruct s as [|c s]; simpl; [reflexivity|]. now intros ->. Qed.

Lemma urstrip_starts_solid s : starts_solid s -> starts_solid (rstrip s).
Proof.
  destruct s as [|c s]; simpl; [exact id|].
  intros E. rewrite E. exact E.
Qed.

Lemma urstrip_idem s : rstrip (rstrip s) = rstrip s.
Proof.
  induction s as [|c s IH]; simpl; [reflexivity|].
  destruct (isspace c && is_empty (rstrip s)) eqn:E; simpl; [reflexivity|].
  now rewrite IH, E.
Qed.

Lemma rstrip_solid a : Forall (fun d => isspace d = false) a -> rstrip a = a.
Proof.
  induction 1 as [|d a Hd _ IH]; simpl; [reflexivity|].
  now rewrite Hd, IH.
Qed.

Lemma rstrip_app_kept a b : rstrip b = b -> b <> [] -> rstrip (a ++ b) = a ++ b.
Proof.
  intros Hb Hne. induction a as [|d a IH]; simpl; [exact Hb|].
  rewrite IH. destruct (a ++ b) eqn:E.
  - apply app_eq_nil in E as [_ ->]. now destruct Hne.
  - simpl. now rewrite andb_false_r.
Qed.

Lemma lstrip_lower_from s before :
  starts_solid s -> lstrip (lower_from before s) = lower_from before s.
Proof.
  destruct s as [|c s]; simpl; [reflexivity|]. intros Hc.
  destruct (lower_at_spec before c s) as (Hne & _ & Hsolid).
  specialize (Hsolid Hc).
  destruct (lower_at before c s) as [|d ds]; [done|].
  apply Forall_cons in Hsolid as [Hd _]. simpl. now rewrite Hd.
Qed.

Lemma rstrip_lower_from s : forall before,
  rstrip s = s -> rstrip (lower_from before s) = lower_from before s.
Proof.
  induction s as [|c s IH]; intros before; [reflexivity|].
  simpl. destruct (isspace c && is_empty (rstrip s)) eqn:E; [discriminate|].
  intros [= Hs]. destruct s as [|c' s'].
  - simpl in *. rewrite andb_true_r in E. rewrite app_nil_r.
    apply rstrip_solid. now apply lower_at_spec.
  - apply rstrip_app_kept; [now apply IH | apply lower_from_nonempty].
Qed.

Lemma strip_lower_kept t :
  starts_solid t -> rstrip t = t -> strip (lower t) = lower t.
Proof.
  intros Hs Hr. unfold strip, lower.
  rewrite lstrip_lower_from by exact Hs. now apply rstrip_lower_from.
Qed.

Lemma strip_normalize s : strip (normalize s) = normalize s.
Proof.
  unfold normalize. apply strip_lower_kept.
  - apply urstrip_starts_solid, ulstrip_starts_solid.
  - apply urstrip_idem.
Qed.

Lemma ulower_normalize s : lower (normalize s) = normalize s.
Proof. apply ulower_idem. Qed.

Lemma unormalize_idem s : normalize (normalize s) = normalize s.
Proof.
  unfold normalize at 1. now rewrite strip_normalize, ulower_normalize.
Qed.

Lemma ulstrip_blank s : blank s = true -> lstrip s = [].
Proof.
  induction s as [|c s IH]; simpl; [reflexivity|].
  intros [Hc Hs]%andb_prop. rewrite Hc. exact (IH Hs).
Qed.

Lemma rstrip_blank s : blank s = true -> rstrip s = [].
Proof.
  induction s as [|c s IH]; simpl; [reflexivity|].
  intros [Hc Hs]%andb_prop. now rewrite (IH Hs), Hc.
Qed.

Lemma lstrip_app_blank pre s : blank pre = true -> lstrip (pre ++ s) = lstrip s.
Proof.
  induction pre as [|c pre IH]; simpl; [reflexivity|].
  intros [Hc Hpre]%andb_prop. rewrite Hc. exact (IH Hpre).
Qed.

Lemma rstrip_app_blank s post : blank post = true -> rstrip (s ++ post) = rstrip s.
Proof.
  intros Hpost. induction s as [|c s IH]; simpl.
  - now apply rstrip_blank.
  - now rewrite IH.
Qed.

Lemma strip_app_blank s post : blank post = true -> strip (s ++ post) = strip s.
Proof.
  intros Hpost. unfold strip. induction s as [|c s IH]; simpl.
  - now rewrite (ulstrip_blank _ Hpost).
  - destruct (isspace c); [exact IH|].
    change (c :: s ++ post) with ((c :: s) ++ post).
    now apply rstrip_app_blank.
Qed.

(** *** [PyStr] is [PyUnicode] below 256 *)

Local Ltac by_code c :=
  destruct c as [[] [] [] [] [] [] [] []]; vm_compute; reflexivity.

Lemma isspace_of_ascii c : isspace (N_of_ascii c) = PyStr.isspace c.
Proof. by_code c. Qed.

Lemma lower_at_of_ascii before c after :
  lower_at before (N_of_ascii c) after = [N_of_ascii (PyStr.lower_char c)].
Proof. by_code c. Qed.

Lemma lower_from_of_string s : forall before,
  lower_from before (of_string s) = of_string (PyStr.lower s).
Proof.
  induction s as [|c s IH]; intros before; simpl; [reflexivity|].
  now rewrite lower_at_of_ascii, IH.
Qed.

Lemma lstrip_of_string s : lstrip (of_string s) = of_string (PyStr.lstrip s).
Proof.
  induction s as [|c s IH]; simpl; [reflexivity|].
  rewrite isspace_of_ascii. now destruct (PyStr.isspace c).
Qed.

Lemma is_empty_of_string s : is_empty (of_string s) = PyStr.is_empty s.
Proof. now destruct s. Qed.

Lemma rstrip_of_string s : rstrip (of_string s) = of_string (PyStr.rstrip s).
Proof.
  induction s as [|c s IH]; simpl; [reflexivity|].
  rewrite isspace_of_ascii, IH, is_empty_of_string.
  now destruct (PyStr.isspace c && PyStr.is_empty (PyStr.rstrip s)).
Qed.

(** The normalization the script's state is written with is the full one,
    on the strings of code points below 256. *)
Lemma normalize_of_string s :
  normalize (of_string s) = of_string (PyStr.normalize s).
Proof.
  unfold normalize, strip, lower, PyStr.normalize, PyStr.strip.
  now rewrite lstrip_of_string, rstrip_of_string, lower_from_of_string.
Qed.

End PyUnicodeFacts.

(** * The claims *)

(** ** Normalization *)

(** C5: normalization (trim surrounding white space, then lowercase the
    whole string) is idempotent: for every string [s], a list of code
    points of any kind, [normalize (normalize s) = normalize s].  [lower]
    here is the full one: it depends on the context (the final sigma) and
    can lengthen the string (U+0130). *)
Theorem C5_normalize_idempotent (s : list N) :
  PyUnicode.normalize (PyUnicode.normalize s) = PyUnicode.normalize s.
Proof. exact (PyUnicodeFacts.unormalize_idem s). Qed.

(** [" ΑΣ Σα\u3000"] and ["İ"] *)
Example normalize_final_sigma :
  PyUnicode.normalize [32; 913; 931; 32; 931; 945; 12288]%N
  = [945; 962; 32; 963; 945]%N.
Proof. vm_compute. reflexivity. Qed.

Example normalize_dotted_capital_i :
  PyUnicode.normalize [304]%N = [105; 775]%N.
Proof. vm_compute. reflexivity. Qed.

Example normalize_hello : normalize " Hello " = "hello".
Proof. reflexivity. Qed.

Example normalize_nbsp_eacute :
  normalize (String (ascii_of_nat 160) (String (ascii_of_nat 201) " "))
  = String (ascii_of_nat 233) "".
Proof. reflexivity. Qed.

(** ** Leaving the loop *)

(** C3: a line whose normalized form is [quit], in any casing and with any
    surrounding white space, ends the session at once: the pass breaks out
    of the loop having written only the [You:] prompt, the lines after it
    stay unread (no teach dialogue), and the table is the one before the
    pass (no entry added).  This holds whatever [brain] is, even unbound,
    where a lookup would raise: no lookup takes place. *)
Theorem C3_quit_ends_session (st : state) (raw : string) (rest : list string)
    (fuel : nat) :
  stdin st = raw :: rest ->
  normalize raw = "quit" ->
  body st =
    Ret Break (State (files st) rest (stdout st ++ [Prompt "You:"])%list
                 (brain st)) /\
  while_true (S fuel) st =
    Ret tt (State (files st) rest (stdout st ++ [Prompt "You:"])%list
              (brain st)).
Proof.
  intros Hin Hq. pose proof (body_quit st raw rest Hin Hq) as Hb.
  split; [exact Hb|]. simpl. unfold bind. now rewrite Hb.
Qed.

Lemma C3_quit_ends_session_witness :
  normalize "  QuIt " = "quit" /\
  body (State ∅ ["  QuIt "; "hello"] [] None) =
    Ret Break (State ∅ ["hello"] [Prompt "You:"] None) /\
  while_true 1 (State ∅ ["  QuIt "; "hello"] [] None) =
    Ret tt (State ∅ ["hello"] [Prompt "You:"] None).
Proof.
  split; [reflexivity|].
  apply (C3_quit_ends_session (State ∅ ["  QuIt "; "hello"] [] None)
           "  QuIt " ["hello"] 0); reflexivity.
Defined.

(** C2 as stated fails: with no storage file (so no corruption at start-up)
    and an input that ends after a taught pair, the process ends on an
    uncaught [EOFError] with exit status 1, not 0. *)
Lemma C2_eof_counterexample :
  (∅ : gmap string file) !! BRAIN = None /\
  exit_status (run ∅ ["hello"; "hi there"]) = Some 1%Z /\
  exit_status (run ∅ ["hello"; "hi there"; "quit"]) = Some 0%Z /\
  ~ exit_status (run ∅ ["hello"; "hi there"])
    = exit_status (run ∅ ["hello"; "hi there"; "quit"]).
Proof. repeat split; try reflexivity. vm_compute. discriminate. Qed.

Lemma body_input_ends st :
  input_ends st -> exists st', body st = Raise EOFError st'.
Proof.
  intros [Hin|(raw & b & Hin & Hq & Hb & Hc)].
  { rewrite body_eof by done. eauto. }
  unfold body. unfold_py. rewrite Hin. simpl. fold_normalize.
  destruct (decide (normalize raw = "quit")) as [|_]; [done|].
  rewrite Hb. simpl.
  destruct b; simpl in *; simplify_eq; try done.
  all: match goal with H : _ = false |- _ => rewrite H end; simpl; eauto.
Qed.

Lemma iter_while_true st st' n :
  iter st st' -> while_true (S n) st = while_true n st'.
Proof. unfold iter. intros H. simpl. unfold bind. now rewrite H. Qed.

Lemma rtc_while_true st st' :
  rtc iter st st' -> exists k, forall n, while_true (k + n) st = while_true n st'.
Proof.
  induction 1 as [st|st st1 st' Hstep _ [k IH]].
  - by exists 0.
  - exists (S k). intros n. simpl plus.
    rewrite (iter_while_true _ _ _ Hstep). apply IH.
Qed.

(** More budget does not change an outcome that did not use up its own. *)
Lemma while_true_mono n : forall n' st,
  n <= n' -> (forall st', while_true n st <> OutOfFuel st') ->
  while_true n' st = while_true n st.
Proof.
  induction n as [|n IH]; intros n' st Hle Hr.
  { by destruct (Hr st). }
  destruct n' as [|n']; [lia|]. simpl in *. unfold bind in *.
  destruct (body st) as [[|] st1|e st1|st1]; try done.
  apply IH; [lia | done].
Qed.

(** The loop of a run, resumed at any point of the session. *)
Lemma run_from_point fs lines st1 r :
  session_point fs lines st1 ->
  while_true 1 st1 = r -> (forall st', r <> OutOfFuel st') ->
  run fs lines = r.
Proof.
  intros (st0 & Hs & Hrtc) Hr Hfuel. unfold run, main, bind. rewrite Hs.
  cbv beta. destruct (rtc_while_true _ _ Hrtc) as [k Hk].
  specialize (Hk 1). rewrite Hr in Hk.
  rewrite <- Hk.
  destruct (while_true_fuel (S (length (stdin st0)))
              (k + 1 + S (length (stdin st0))) st0 ltac:(lia) ltac:(lia))
    as [-> _].
  apply while_true_mono; [lia | by rewrite Hk].
Qed.

Lemma while_true_ret_point n : forall st st',
  while_true n st = Ret tt st' ->
  exists st1 raw rest,
    rtc iter st st1 /\ stdin st1 = raw :: rest /\ normalize raw = "quit".
Proof.
  induction n as [|n IH]; intros st st'; simpl; [done|].
  unfold bind. pose proof (body_spec st) as Hb.
  destruct (body st) as [[|] st2|e st2|st2] eqn:E; try done.
  - intros _. destruct Hb as (raw & Hin & Hq & _).
    exists st, raw, (stdin st2). by split.
  - intros H. destruct (IH _ _ H) as (st1 & raw & rest & Hrtc & Hin & Hq).
    exists st1, raw, rest. split; [|done]. by eapply rtc_l.
Qed.

(** C2, amended: the end of the input is not a clean exit.  Whenever, at a
    point of the session, the input has ended while the program waits for
    a line (at the [You:] prompt, or at the teach prompt after an unknown
    phrase), [EOFError] is raised and not caught, and the exit status is
    1.  The exit status is 0 exactly when, at some point of the session,
    the line read at the [You:] prompt normalizes to [quit]. *)
Theorem C2_eof_raises (fs : gmap string file) (lines : list string) :
  (forall st1,
      session_point fs lines st1 -> input_ends st1 ->
      (exists st, run fs lines = Raise EOFError st) /\
      exit_status (run fs lines) = Some 1%Z) /\
  (exit_status (run fs lines) = Some 0%Z <->
   exists st1 raw rest,
     session_point fs lines st1 /\ stdin st1 = raw :: rest /\
     normalize raw = "quit").
Proof.
  split.
  - intros st1 Hpt Hend.
    destruct (body_input_ends st1 Hend) as [st Hbody].
    assert (run fs lines = Raise EOFError st) as E.
    { apply (run_from_point fs lines st1); [done| |done].
      simpl. unfold bind. now rewrite Hbody. }
    split; [eauto|]. now rewrite E.
  - split.
    + unfold run, main, bind. intros H.
      destruct (startup (init fs lines)) as [[] st0|e st0|st0] eqn:Hs;
        try done.
      cbv beta in H.
      destruct (while_true _ st0) as [[] st'|e st'|st'] eqn:E; try done.
      destruct (while_true_ret_point _ _ _ E)
        as (st1 & raw & rest & Hrtc & Hin & Hq).
      exists st1, raw, rest. split; [|done]. by exists st0.
    + intros (st1 & raw & rest & Hpt & Hin & Hq).
      assert (run fs lines =
                Ret tt (State (files st1) rest
                          (stdout st1 ++ [Prompt "You:"])%list (brain st1)))
        as E.
      { apply (run_from_point fs lines st1); [done| |done].
        simpl. unfold bind. now rewrite (body_quit st1 raw rest Hin Hq). }
      now rewrite E.
Qed.

Lemma C2_eof_raises_witness :
  (exists st, run ∅ ["hello"; "quit"] = Raise EOFError st) /\
  exit_status (run ∅ ["hello"; "quit"]) = Some 1%Z.
Proof.
  destruct (C2_eof_raises ∅ ["hello"; "quit"]) as [H _].
  apply (H (State ∅ []
              (banner 0 ++ [Prompt "You:";
                            Print [JStr "Bot: I don't know what to say"];
                            Prompt "Can you teach me?";
                            Print [JStr "Bot: Got it! I'll remember that"]])
              (Some (JDict {[ "hello" := JStr "quit" ]})))).
  - eexists. split; [reflexivity|].
    eapply rtc_l; [|apply rtc_refl]. vm_compute. reflexivity.
  - left. reflexivity.
Defined.

(** ** Looking up and teaching *)

(** C8: in the teach dialogue the line typed at the teach prompt is stored
    as it was read, with no normalization; the pair that enters the table
    is (normalized phrase, that line); the fixed acknowledgement is printed
    and the loop goes round again. *)
Theorem C8_teach_stores_raw_response (st : state) (m : gmap string json)
    (raw teach : string) (rest : list string) :
  brain st = Some (JDict m) ->
  stdin st = raw :: teach :: rest ->
  normalize raw <> "quit" ->
  m !! normalize raw = None ->
  body st =
    Ret Next
      (State (files st) rest
         (stdout st ++ [Prompt "You:";
                        Print [JStr "Bot: I don't know what to say"];
                        Prompt "Can you teach me?";
                        Print [JStr "Bot: Got it! I'll remember that"]])%list
         (Some (JDict (<[normalize raw := JStr teach]> m)))).
Proof.
  intros Hb Hin Hq Hk.
  exact (body_teach st raw (teach :: rest) Hin m teach rest Hq Hb Hk eq_refl).
Qed.

Lemma C8_teach_stores_raw_response_witness :
  body (State ∅ [" Good Morning "; "  Hi THERE  "; "quit"] [] (Some (JDict ∅))) =
    Ret Next
      (State ∅ ["quit"]
         [Prompt "You:"; Print [JStr "Bot: I don't know what to say"];
          Prompt "Can you teach me?";
          Print [JStr "Bot: Got it! I'll remember that"]]
         (Some (JDict (<[normalize " Good Morning " := JStr "  Hi THERE  "]> ∅)))).
Proof.
  apply (C8_teach_stores_raw_response
           (State ∅ [" Good Morning "; "  Hi THERE  "; "quit"] [] (Some (JDict ∅)))
           ∅ " Good Morning " "  Hi THERE  " ["quit"]).
  - reflexivity.
  - reflexivity.
  - vm_compute. discriminate.
  - reflexivity.
Defined.

(** C4: starting from an empty table, once the phrase [hello] has been
    taught the response [hi there], a later line that normalizes to [hello]
    (for example [ Hello ]) is answered with exactly [hi there]. *)
Theorem C4_lookup_after_teach (st : state) (typed raw : string)
    (rest : list string) :
  brain st = Some (JDict ∅) ->
  stdin st = typed :: "hi there" :: raw :: rest ->
  normalize typed = "hello" ->
  normalize raw = "hello" ->
  exists st1 st2,
    body st = Ret Next st1 /\
    brain st1 = Some (JDict {[ "hello" := JStr "hi there" ]}) /\
    body st1 = Ret Next st2 /\
    stdout st2 = (stdout st1 ++ [Prompt "You:";
                                 Print [JStr "Bot:"; JStr "hi there"]])%list /\
    brain st2 = brain st1 /\ stdin st2 = rest.
Proof.
  intros Hb Hin Ht Hr.
  assert (normalize typed <> "quit") as Hq1 by (rewrite Ht; discriminate).
  assert (normalize raw <> "quit") as Hq2 by (rewrite Hr; discriminate).
  pose proof (body_teach st typed _ Hin ∅ "hi there" (raw :: rest) Hq1 Hb
                (lookup_empty _) eq_refl) as E1.
  rewrite Ht in E1.
  eexists _, _. split; [exact E1|]. split; [reflexivity|].
  split.
  { eapply body_known; simpl; try done. rewrite Hr. apply lookup_insert_eq. }
  repeat split; reflexivity.
Qed.

Lemma C4_lookup_after_teach_witness :
  exists st1 st2,
    body (State ∅ ["hello"; "hi there"; " Hello "] [] (Some (JDict ∅)))
      = Ret Next st1 /\
    brain st1 = Some (JDict {[ "hello" := JStr "hi there" ]}) /\
    body st1 = Ret Next st2 /\
    stdout st2 = (stdout st1 ++ [Prompt "You:";
                                 Print [JStr "Bot:"; JStr "hi there"]])%list /\
    brain st2 = brain st1 /\ stdin st2 = [].
Proof.
  apply (C4_lookup_after_teach
           (State ∅ ["hello"; "hi there"; " Hello "] [] (Some (JDict ∅)))
           "hello" " Hello " []); reflexivity.
Defined.

(** C10: a blank line (empty, or white space only) gets no special
    treatment.  It normalizes to the empty string; when the table has no
    entry for the empty string the teach dialogue runs and the response is
    stored under the empty-string key; a later blank line is answered with
    that response. *)
Theorem C10_blank_line_is_a_phrase (st : state) (m : gmap string json)
    (raw teach again : string) (rest : list string) :
  brain st = Some (JDict m) ->
  m !! "" = None ->
  blank raw = true ->
  blank again = true ->
  stdin st = raw :: teach :: again :: rest ->
  normalize raw = "" /\
  exists st1 st2,
    body st = Ret Next st1 /\
    stdout st1 = (stdout st ++ [Prompt "You:";
                                Print [JStr "Bot: I don't know what to say"];
                                Prompt "Can you teach me?";
                                Print [JStr "Bot: Got it! I'll remember that"]])%list /\
    brain st1 = Some (JDict (<["" := JStr teach]> m)) /\
    body st1 = Ret Next st2 /\
    stdout st2 = (stdout st1 ++ [Prompt "You:";
                                 Print [JStr "Bot:"; JStr teach]])%list /\
    brain st2 = brain st1.
Proof.
  intros Hb Hk Hraw Hagain Hin.
  apply normalize_empty_iff in Hraw, Hagain.
  split; [exact Hraw|].
  assert (normalize raw <> "quit") as Hq1 by (rewrite Hraw; discriminate).
  assert (normalize again <> "quit") as Hq2 by (rewrite Hagain; discriminate).
  pose proof (body_teach st raw _ Hin m teach (again :: rest) Hq1 Hb
                ltac:(by rewrite Hraw) eq_refl) as E1.
  rewrite Hraw in E1.
  eexists _, _. split; [exact E1|]. do 2 (split; [reflexivity|]).
  split.
  { eapply body_known; simpl; try done.
    rewrite Hagain. apply lookup_insert_eq. }
  split; reflexivity.
Qed.

Lemma C10_blank_line_is_a_phrase_witness :
  normalize "   " = "" /\
  exists st1 st2,
    body (State ∅ ["   "; "say something"; ""] [] (Some (JDict ∅)))
      = Ret Next st1 /\
    stdout st1 = ([] ++ [Prompt "You:";
                         Print [JStr "Bot: I don't know what to say"];
                         Prompt "Can you teach me?";
                         Print [JStr "Bot: Got it! I'll remember that"]])%list /\
    brain st1 = Some (JDict (<["" := JStr "say something"]> ∅)) /\
    body st1 = Ret Next st2 /\
    stdout st2 = (stdout st1 ++ [Prompt "You:";
                                 Print [JStr "Bot:"; JStr "say something"]])%list /\
    brain st2 = brain st1.
Proof.
  apply (C10_blank_line_is_a_phrase
           (State ∅ ["   "; "say something"; ""] [] (Some (JDict ∅)))
           ∅ "   " "say something" "" []); reflexivity.
Defined.

(** ** The table along a session *)

(** C9: within a session a stored response is never overwritten.  Let the
    table hold [v] under the phrase [k]; then at every later point of the
    session (any number of passes on) the table still holds [v] under [k];
    a line that normalizes to [k] either leaves the loop or is answered
    with [v], the table untouched; and whatever the next pass does, the
    table after it keeps every entry and is either the same table or that
    table with one entry added at a phrase it did not hold. *)
Theorem C9_stored_response_not_overwritten (st st' : state)
    (m : gmap string json) (k : string) (v : json) :
  brain st = Some (JDict m) ->
  m !! k = Some v ->
  rtc iter st st' ->
  exists m',
    brain st' = Some (JDict m') /\ m' !! k = Some v /\
    (forall raw rest,
        stdin st' = raw :: rest -> normalize raw = k ->
        body st' =
          Ret Break (State (files st') rest
                       (stdout st' ++ [Prompt "You:"])%list (brain st')) \/
        body st' =
          Ret Next (State (files st') rest
                      (stdout st' ++ [Prompt "You:"; Print [JStr "Bot:"; v]])%list
                      (brain st'))) /\
    (exists m'',
        brain (final (body st')) = Some (JDict m'') /\ m' ⊆ m'' /\
        (m'' = m' \/
         exists k' v', m' !! k' = None /\ m'' = <[k' := v']> m')).
Proof.
  intros Hb Hk Hrtc.
  destruct (session_grows _ _ _ Hrtc Hb) as (m' & Hb' & Hsub).
  pose proof (lookup_weaken _ _ _ _ Hk Hsub) as Hk'.
  exists m'. do 2 (split; [done|]). split.
  - intros raw rest Hin Hraw.
    destruct (decide (normalize raw = "quit")) as [Hq|Hq].
    + left. apply (body_quit st' raw rest Hin Hq).
    + right. apply (body_known st' raw rest Hin m' v); [done..|].
      by rewrite Hraw.
  - destruct (body_brain st') as [E|(m0 & raw & teach & E0 & Hnone & E)].
    + exists m'. split; [congruence|]. split; [done | by left].
    + assert (m0 = m') as -> by congruence.
      exists (<[normalize raw := JStr teach]> m'). split; [done|].
      split; [by apply insert_subseteq | right; eauto].
Qed.

Lemma C9_stored_response_not_overwritten_witness :
  rtc iter sample_before sample_after /\
  exists m',
    brain sample_after = Some (JDict m') /\ m' !! "hello" = Some (JStr "hi") /\
    (forall raw rest,
        stdin sample_after = raw :: rest -> normalize raw = "hello" ->
        body sample_after =
          Ret Break (State (files sample_after) rest
                       (stdout sample_after ++ [Prompt "You:"])%list
                       (brain sample_after)) \/
        body sample_after =
          Ret Next (State (files sample_after) rest
                      (stdout sample_after
                       ++ [Prompt "You:"; Print [JStr "Bot:"; JStr "hi"]])%list
                      (brain sample_after))) /\
    (exists m'',
        brain (final (body sample_after)) = Some (JDict m'') /\ m' ⊆ m'' /\
        (m'' = m' \/
         exists k' v', m' !! k' = None /\ m'' = <[k' := v']> m')).
Proof.
  assert (rtc iter sample_before sample_after) as Hrtc.
  { eapply rtc_l; [|apply rtc_refl]. vm_compute. reflexivity. }
  split; [exact Hrtc|].
  apply (C9_stored_response_not_overwritten sample_before sample_after
           {[ "hello" := JStr "hi" ]} "hello" (JStr "hi"));
    [reflexivity | reflexivity | exact Hrtc].
Defined.

Lemma session_keys_normalized st0 st :
  rtc iter st0 st -> keys_normalized st0 -> keys_normalized st.
Proof.
  induction 1 as [|st0 st1 st Hstep _ IH]; [done|].
  intros H0. apply IH. by apply (iter_keys_normalized st0).
Qed.

(** C7 as stated fails right after load: the keys of the storage file are
    taken as they are, so a file with the key [Hello] gives a session whose
    table holds a key that is not its own normalized form. *)
Lemma C7_keys_counterexample :
  session_point stale_store []
    (State stale_store [] (banner 1) (Some (JDict {[ "Hello" := JStr "hi" ]}))) /\
  ~ keys_normalized
      (State stale_store [] (banner 1) (Some (JDict {[ "Hello" := JStr "hi" ]}))).
Proof.
  split.
  - eexists. split; [|apply rtc_refl]. reflexivity.
  - intros H.
    specialize (H {[ "Hello" := JStr "hi" ]} "Hello" eq_refl
                  ltac:(by eexists)).
    vm_compute in H. discriminate.
Qed.

(** C7, amended: when the storage file is absent, or every key of the
    object it holds is normalized, every key of the table is normalized at
    every point of the session: after start-up and after every pass, hence
    after every teach.  (Load does not normalize the keys it reads; the
    teach dialogue inserts normalized keys only.) *)
Theorem C7_keys_stay_normalized (fs : gmap string file) (lines : list string)
    (st : state) :
  stored_keys_normalized fs ->
  session_point fs lines st ->
  keys_normalized st.
Proof.
  intros Hfs (st0 & Hstart & Hrtc).
  apply (session_keys_normalized st0 st Hrtc).
  pose proof (startup_spec fs lines) as (_ & _ & _ & Hbrain).
  destruct (Hbrain st0 Hstart) as [[Hb _]|(v & Hb & Hf)]; intros m k Hm Hk.
  - assert (m = ∅) as -> by congruence.
    rewrite lookup_empty in Hk. by destruct Hk.
  - apply (Hfs m k); [congruence | done].
Qed.

Lemma C7_keys_stay_normalized_witness :
  stored_keys_normalized ∅ /\
  session_point ∅ [" Good Morning "; "hi"; "quit"]
    (State ∅ ["quit"]
       (banner 0 ++ [Prompt "You:"; Print [JStr "Bot: I don't know what to say"];
                     Prompt "Can you teach me?";
                     Print [JStr "Bot: Got it! I'll remember that"]])
       (Some (JDict {[ "good morning" := JStr "hi" ]}))) /\
  keys_normalized
    (State ∅ ["quit"]
       (banner 0 ++ [Prompt "You:"; Print [JStr "Bot: I don't know what to say"];
                     Prompt "Can you teach me?";
                     Print [JStr "Bot: Got it! I'll remember that"]])
       (Some (JDict {[ "good morning" := JStr "hi" ]}))).
Proof.
  assert (stored_keys_normalized ∅) as Hfs.
  { intros m k Hm. vm_compute in Hm. discriminate. }
  assert (session_point ∅ [" Good Morning "; "hi"; "quit"]
            (State ∅ ["quit"]
               (banner 0 ++ [Prompt "You:";
                             Print [JStr "Bot: I don't know what to say"];
                             Prompt "Can you teach me?";
                             Print [JStr "Bot: Got it! I'll remember that"]])
               (Some (JDict {[ "good morning" := JStr "hi" ]})))) as Hpt.
  { eexists. split; [reflexivity|].
    eapply rtc_l; [|apply rtc_refl]. vm_compute. reflexivity. }
  split; [exact Hfs|]. split; [exact Hpt|].
  exact (C7_keys_stay_normalized ∅ _ _ Hfs Hpt).
Defined.

(** ** Storage *)

(** C6 as stated fails on both counts: a storage file that exists and holds
    an empty object loads as an empty table, so an empty table does not
    mean that no file exists; and a storage file that holds an array, which
    is not a key/value object, loads without any error. *)
Lemma C6_load_counterexample :
  ~ ((exists st, load (init empty_object_store []) = Ret tt st /\
                 brain st = Some (JDict ∅))
     <-> empty_object_store !! BRAIN = None) /\
  ~ ((exists e st, load (init array_store []) = Raise e st)
     <-> exists f, array_store !! BRAIN = Some f /\
                   forall m, f <> Json (JDict m)).
Proof.
  split.
  - intros [H _]. discriminate H. eexists. split; reflexivity.
  - intros [_ H]. destruct H as (e & st & H); [|discriminate H].
    eexists. split; [reflexivity | discriminate].
Qed.

(** C6, amended: load raises exactly when the storage file exists and
    cannot be loaded: [open] refuses it ([OSError]), it is not UTF-8
    ([UnicodeDecodeError]), it is not valid JSON ([JSONDecodeError]), or
    it is JSON that the decoder gives up on ([RecursionError],
    [ValueError]).  Nothing catches the error, nothing has been printed or
    read, and the process ends with exit status 1.  When no file exists
    load gives an empty table.  When the file exists and decodes, load
    gives the decoded value whatever it is, complete and unchecked: so load
    gives an empty table exactly when there is no file or the file holds an
    empty object. *)
Theorem C6_load_outcomes (st : state) :
  ((exists e st', load st = Raise e st') <->
   exists f e, files st !! BRAIN = Some f /\ decode f = inl e) /\
  (forall e st', load st = Raise e st' ->
     st' = st /\
     (exists f, files st !! BRAIN = Some f /\ decode f = inl e) /\
     (e = OSError \/ e = UnicodeDecodeError \/ e = JSONDecodeError \/
      e = RecursionError \/ e = ValueError)) /\
  (forall lines f e, files st !! BRAIN = Some f -> decode f = inl e ->
     run (files st) lines = Raise e (init (files st) lines) /\
     exit_status (run (files st) lines) = Some 1%Z) /\
  (forall v, files st !! BRAIN = Some (Json v) ->
     load st = Ret tt (State (files st) (stdin st) (stdout st) (Some v))) /\
  ((exists st', load st = Ret tt st' /\ brain st' = Some (JDict ∅)) <->
   files st !! BRAIN = None \/ files st !! BRAIN = Some (Json (JDict ∅))).
Proof.
  rewrite load_spec.
  split; [|split; [|split; [|split]]].
  - destruct (files st !! BRAIN) as [f|]; split.
    + destruct (decode f) as [e|v] eqn:Hd; [eauto|]. by intros (? & ? & ?).
    + intros (f' & e & [= <-] & ->). eauto.
    + by intros (? & ? & ?).
    + by intros (? & ? & ? & _).
  - intros e st'. destruct (files st !! BRAIN) as [f|]; [|done].
    destruct (decode f) as [e'|v] eqn:Hd; [|done].
    intros [= <- <-]. split; [done|]. split; [eauto|].
    destruct f; simpl in Hd; simplify_eq; auto.
  - intros lines f e Hf Hd. unfold run, main, bind.
    by rewrite (startup_error _ _ f e Hf Hd).
  - by intros v ->.
  - destruct (files st !! BRAIN) as [f|]; split.
    + destruct f; simpl; try by intros (? & ? & ?).
      intros (st' & [= <-] & [= ->]). by right.
    + intros [|[= ->]]; [done|]. eexists. by split.
    + intros _. by left.
    + intros _. eexists. by split.
Qed.

Lemma C6_load_outcomes_witness :
  load (init {[ BRAIN := Json (JDict {[ "hello" := JStr "hi" ]}) ]} ["quit"]) =
    Ret tt (State {[ BRAIN := Json (JDict {[ "hello" := JStr "hi" ]}) ]}
              ["quit"] [] (Some (JDict {[ "hello" := JStr "hi" ]}))) /\
  run {[ BRAIN := NotUtf8 ]} ["quit"] =
    Raise UnicodeDecodeError (init {[ BRAIN := NotUtf8 ]} ["quit"]) /\
  exit_status (run {[ BRAIN := NotUtf8 ]} ["quit"]) = Some 1%Z.
Proof.
  split.
  - destruct (C6_load_outcomes
                (init {[ BRAIN := Json (JDict {[ "hello" := JStr "hi" ]}) ]}
                   ["quit"])) as (_ & _ & _ & H & _).
    apply (H (JDict {[ "hello" := JStr "hi" ]})). reflexivity.
  - destruct (C6_load_outcomes (init {[ BRAIN := NotUtf8 ]} ["quit"]))
      as (_ & _ & H & _).
    apply (H ["quit"] NotUtf8 UnicodeDecodeError); reflexivity.
Defined.

(** C1: the table is not written back at exit.  In a session with no
    storage file that teaches [hello] and then quits, the process ends with
    status 0 and the table holds the taught pair, yet the file system is as
    it was at the start (there is still no storage file), so the next load
    gives an empty table, not the table as it stood at exit.  The same
    session ended by the end of the input instead of [quit] leaves the
    file system untouched as well. *)
Theorem C1_taught_pair_is_not_saved :
  exit_status (run ∅ ["hello"; "hi there"; "quit"]) = Some 0%Z /\
  brain (final (run ∅ ["hello"; "hi there"; "quit"]))
    = Some (JDict {[ "hello" := JStr "hi there" ]}) /\
  files (final (run ∅ ["hello"; "hi there"; "quit"])) = ∅ /\
  brain (final (load (init (files (final (run ∅ ["hello"; "hi there"; "quit"])))
                        [])))
    = Some (JDict ∅) /\
  brain (final (run ∅ ["hello"; "hi there"]))
    = Some (JDict {[ "hello" := JStr "hi there" ]}) /\
  files (final (run ∅ ["hello"; "hi there"])) = ∅.
Proof. repeat split; reflexivity. Qed.

(** * Further properties of the script *)

(** ** Normalization *)

(** X8: white space around a phrase never matters: for [pre] and [post]
    made of white space only, the line [pre ++ s ++ post] normalizes to
    what [s] normalizes to, for every string of code points. *)
Theorem X8_normalize_ignores_padding (pre s post : list N) :
  PyUnicode.blank pre = true ->
  PyUnicode.blank post = true ->
  PyUnicode.normalize (pre ++ s ++ post)%list = PyUnicode.normalize s.
Proof.
  intros Hpre Hpost. unfold PyUnicode.normalize, PyUnicode.strip.
  rewrite (PyUnicodeFacts.lstrip_app_blank pre _ Hpre).
  now rewrite (PyUnicodeFacts.strip_app_blank s post Hpost
               : PyUnicode.rstrip _ = PyUnicode.rstrip _).
Qed.

(** [" \u2003"], ["Good  Σ"], ["\u3000\n"] *)
Lemma X8_normalize_ignores_padding_witness :
  PyUnicode.normalize
    ([32; 8195] ++ [71; 111; 111; 100; 32; 32; 931] ++ [12288; 10])%list%N
  = PyUnicode.normalize [71; 111; 111; 100; 32; 32; 931]%N.
Proof.
  apply (X8_normalize_ignores_padding [32; 8195]%N
           [71; 111; 111; 100; 32; 32; 931]%N [12288; 10]%N); reflexivity.
Defined.

(** X9: the strings that normalization leaves alone are exactly those that
    [strip] and [lower] each leave alone, among all strings of code
    points. *)
Theorem X9_normalized_fixed_points (s : list N) :
  PyUnicode.normalize s = s <->
  PyUnicode.strip s = s /\ PyUnicode.lower s = s.
Proof.
  split.
  - intros E. rewrite <- E. split.
    + apply PyUnicodeFacts.strip_normalize.
    + apply PyUnicodeFacts.ulower_normalize.
  - intros [Hs Hl]. unfold PyUnicode.normalize. now rewrite Hs.
Qed.

(** ["good  ως"] *)
Lemma X9_normalized_fixed_points_witness :
  PyUnicode.normalize [103; 111; 111; 100; 32; 32; 969; 962]%N
  = [103; 111; 111; 100; 32; 32; 969; 962]%N.
Proof.
  apply (X9_normalized_fixed_points [103; 111; 111; 100; 32; 32; 969; 962]%N).
  split; vm_compute; reflexivity.
Defined.

(** ** Single passes *)

(** X7: a pass sees the line it reads only through its normalized form: two
    lines with the same normalization, in any casing and with any white
    space around them, give the same outcome, output and table. *)
Theorem X7_pass_depends_on_normal_form (st : state) (raw raw' : string)
    (rest : list string) :
  stdin st = raw :: rest ->
  normalize raw' = normalize raw ->
  body (State (files st) (raw' :: rest) (stdout st) (brain st)) = body st.
Proof.
  intros Hin Hn. unfold body. unfold_py. rewrite Hin. simpl.
  fold_normalize. now rewrite Hn.
Qed.

Lemma X7_pass_depends_on_normal_form_witness :
  body (State (files sample_before) ("  BYE " :: ["see you"; "HELLO"; "  bye"])
          (stdout sample_before) (brain sample_before))
  = body sample_before.
Proof.
  apply (X7_pass_depends_on_normal_form sample_before "Bye" "  BYE "
           ["see you"; "HELLO"; "  bye"]); reflexivity.
Defined.

(** Over a table, what a pass does to it: nothing, or one insertion at the
    normalized line, which is absent and is not [quit], of the next line
    as it was read. *)
Lemma body_insert st m m' :
  brain st = Some (JDict m) ->
  brain (final (body st)) = Some (JDict m') ->
  m' = m \/
  exists raw teach rest,
    stdin st = raw :: teach :: rest /\ normalize raw <> "quit" /\
    m !! normalize raw = None /\ m' = <[normalize raw := JStr teach]> m.
Proof.
  intros Hb.
  destruct (stdin st) as [|raw rest] eqn:Hin.
  { rewrite body_eof by done. simpl. left. congruence. }
  destruct (decide (normalize raw = "quit")) as [Hq|Hq].
  { rewrite (body_quit st raw rest Hin Hq). simpl. left. congruence. }
  destruct (m !! normalize raw) as [v|] eqn:Hv.
  { rewrite (body_known st raw rest Hin m v) by done. simpl. left. congruence. }
  destruct rest as [|teach rest'].
  - rewrite (body_teach_eof st raw [] Hin m) by done. simpl. left. congruence.
  - rewrite (body_teach st raw _ Hin m teach rest') by done. simpl.
    intros [= <-]. right. by exists raw, teach, rest'.
Qed.

(** X13: when the input ends at the teach prompt nothing is stored: for an
    unknown phrase on the last line, the pass prints the fixed message and
    the teach prompt, raises [EOFError], and leaves the table as it was;
    the loop ends there with the same state. *)
Theorem X13_eof_at_teach_prompt (st : state) (m : gmap string json)
    (raw : string) (fuel : nat) :
  brain st = Some (JDict m) ->
  stdin st = [raw] ->
  normalize raw <> "quit" ->
  m !! normalize raw = None ->
  while_true (S fuel) st =
    Raise EOFError
      (State (files st) []
         (stdout st ++ [Prompt "You:";
                        Print [JStr "Bot: I don't know what to say"];
                        Prompt "Can you teach me?"])%list
         (Some (JDict m))).
Proof.
  intros Hb Hin Hq Hk. simpl. unfold bind.
  rewrite (body_teach_eof st raw [] Hin m Hq Hb Hk eq_refl).
  now rewrite Hb.
Qed.

Lemma X13_eof_at_teach_prompt_witness :
  while_true 1 (State ∅ [" Good Morning "] [] (Some (JDict ∅))) =
    Raise EOFError
      (State ∅ []
         [Prompt "You:"; Print [JStr "Bot: I don't know what to say"];
          Prompt "Can you teach me?"]
         (Some (JDict ∅))).
Proof.
  apply (X13_eof_at_teach_prompt
           (State ∅ [" Good Morning "] [] (Some (JDict ∅))) ∅
           " Good Morning " 0).
  - reflexivity.
  - reflexivity.
  - vm_compute. discriminate.
  - reflexivity.
Defined.

(** ** Sessions *)

(** X10: the phrase [quit] cannot be taught: when the table has no entry
    under [quit], no later point of the session has one. *)
Theorem X10_quit_is_never_a_key (st st' : state) (m : gmap string json) :
  brain st = Some (JDict m) ->
  m !! "quit" = None ->
  rtc iter st st' ->
  exists m', brain st' = Some (JDict m') /\ m' !! "quit" = None.
Proof.
  intros Hb Hk Hrtc. revert m Hb Hk.
  induction Hrtc as [st|st st1 st' Hstep _ IH]; intros m Hb Hk.
  - by exists m.
  - destruct (iter_brain _ _ _ Hstep Hb) as (m1 & Hb1 & _).
    apply (IH m1 Hb1).
    pose proof (body_insert st m m1 Hb) as Hins.
    unfold iter in Hstep. rewrite Hstep in Hins. simpl in Hins.
    destruct (Hins Hb1) as [->|(raw & teach & rest & _ & Hq & _ & ->)];
      [done|].
    by rewrite lookup_insert_ne.
Qed.

Lemma X10_quit_is_never_a_key_witness :
  exists m', brain sample_after = Some (JDict m') /\ m' !! "quit" = None.
Proof.
  apply (X10_quit_is_never_a_key sample_before sample_after
           {[ "hello" := JStr "hi" ]}).
  - reflexivity.
  - reflexivity.
  - eapply rtc_l; [|apply rtc_refl]. vm_compute. reflexivity.
Defined.

(** X11: what is taught stays answerable for the rest of the session: after
    a pass that teaches the response [teach] for an unknown phrase, and any
    number of further passes, a line with the same normalized form as the
    phrase is answered with exactly [teach], and the table is not
    touched. *)
Theorem X11_taught_phrase_is_answered_later (st st1 st2 : state)
    (m : gmap string json) (raw teach again : string) (rest rest2 : list string) :
  brain st = Some (JDict m) ->
  stdin st = raw :: teach :: rest ->
  normalize raw <> "quit" ->
  m !! normalize raw = None ->
  iter st st1 ->
  rtc iter st1 st2 ->
  stdin st2 = again :: rest2 ->
  normalize again = normalize raw ->
  body st2 =
    Ret Next (State (files st2) rest2
                (stdout st2 ++ [Prompt "You:"; Print [JStr "Bot:"; JStr teach]])%list
                (brain st2)).
Proof.
  intros Hb Hin Hq Hk Hbody Hrtc Hin2 Hagain. unfold iter in Hbody.
  rewrite (body_teach st raw _ Hin m teach rest Hq Hb Hk eq_refl) in Hbody.
  injection Hbody as <-.
  destruct (session_grows _ _ _ Hrtc eq_refl) as (m2 & Hb2 & Hsub).
  apply (body_known st2 again rest2 Hin2 m2 (JStr teach)); [congruence|done|].
  rewrite Hagain. eapply lookup_weaken; [|exact Hsub]. apply lookup_insert_eq.
Qed.

Lemma X11_taught_phrase_is_answered_later_witness :
  body sample_later =
    Ret Next (State (files sample_later) []
                (stdout sample_later
                 ++ [Prompt "You:"; Print [JStr "Bot:"; JStr "see you"]])%list
                (brain sample_later)).
Proof.
  apply (X11_taught_phrase_is_answered_later sample_before sample_after
           sample_later {[ "hello" := JStr "hi" ]} "Bye" "see you" "  bye"
           ["HELLO"; "  bye"] []).
  - reflexivity.
  - reflexivity.
  - vm_compute. discriminate.
  - reflexivity.
  - vm_compute. reflexivity.
  - eapply rtc_l; [|apply rtc_refl]. vm_compute. reflexivity.
  - reflexivity.
  - reflexivity.
Defined.


(** ** Whole runs *)

(** X1: no run writes a file: whatever the storage and the input, the file
    system at the end of the process, however it ends, is the one it
    started with. *)
Theorem X1_run_never_writes (fs : gmap string file) (lines : list string) :
  files (final (run fs lines)) = fs.
Proof. exact (run_files fs lines). Qed.

(** X2: on a finite input the loop always ends: a budget above the number
    of lines is never used up, every such budget gives the outcome of
    [run], and that outcome carries an exit status. *)
Theorem X2_run_terminates (fs : gmap string file) (lines : list string)
    (fuel : nat) :
  length lines < fuel ->
  bind startup (fun _ => while_true fuel) (init fs lines) = run fs lines /\
  (exit_status (run fs lines) = Some 0%Z \/
   exit_status (run fs lines) = Some 1%Z).
Proof.
  intros Hfuel. split.
  - unfold run, main, bind.
    pose proof (startup_spec fs lines) as (_ & Hin & _). simpl in Hin.
    destruct (startup (init fs lines)) as [[] st|e st|st]; try done.
    simpl in Hin. cbv beta.
    apply (while_true_fuel fuel (S (length (stdin st))) st); rewrite Hin; lia.
  - pose proof (run_total fs lines) as Ht.
    destruct (run fs lines); simpl in *; auto. done.
Qed.

Lemma X2_run_terminates_witness :
  bind startup (fun _ => while_true 7) (init ∅ ["hello"; "hi there"; " Hello "])
  = run ∅ ["hello"; "hi there"; " Hello "] /\
  (exit_status (run ∅ ["hello"; "hi there"; " Hello "]) = Some 0%Z \/
   exit_status (run ∅ ["hello"; "hi there"; " Hello "]) = Some 1%Z).
Proof.
  apply (X2_run_terminates ∅ ["hello"; "hi there"; " Hello "] 7). simpl. lia.
Defined.

(** X3: the process ends with exit status 0 only if some line of the input
    normalizes to [quit], whatever the storage holds. *)
Theorem X3_status_zero_needs_quit (fs : gmap string file) (lines : list string) :
  exit_status (run fs lines) = Some 0%Z ->
  exists raw, raw ∈ lines /\ normalize raw = "quit".
Proof. exact (run_status0 fs lines). Qed.

Lemma X3_status_zero_needs_quit_witness :
  exists raw, raw ∈ ["hello"; "hi there"; " QUIT "] /\ normalize raw = "quit".
Proof.
  apply (X3_status_zero_needs_quit ∅ ["hello"; "hi there"; " QUIT "]).
  reflexivity.
Defined.



(** ** Storage that is not an object *)

(** X5: a storage file that holds [null], a boolean or a number stops the
    script at start-up: [len] raises [TypeError] before anything is printed
    or read, and the exit status is 1. *)
Theorem X5_scalar_storage_fails_at_startup (fs : gmap string file)
    (lines : list string) (v : json) :
  fs !! BRAIN = Some (Json v) ->
  scalar v = true ->
  run fs lines = Raise TypeError (State fs lines [] (Some v)) /\
  exit_status (run fs lines) = Some 1%Z.
Proof.
  intros Hf Hv.
  assert (run fs lines = Raise TypeError (State fs lines [] (Some v))) as E.
  { unfold run, main, startup, bind. rewrite load_spec. simpl. rewrite Hf.
    by destruct v. }
  by rewrite E.
Qed.

Lemma X5_scalar_storage_fails_at_startup_witness :
  run {[ BRAIN := Json (JInt 42) ]} ["quit"] =
    Raise TypeError (State {[ BRAIN := Json (JInt 42) ]} ["quit"] []
                       (Some (JInt 42))) /\
  exit_status (run {[ BRAIN := Json (JInt 42) ]} ["quit"]) = Some 1%Z.
Proof.
  apply (X5_scalar_storage_fails_at_startup {[ BRAIN := Json (JInt 42) ]}
           ["quit"] (JInt 42)); reflexivity.
Defined.




(** ** Lines after the one that ends the session *)

Lemma body_feed more st f st' :
  body st = Ret f st' -> body (feed more st) = Ret f (feed more st').
Proof.
  unfold body, feed. unfold_py. simpl.
  destruct (stdin st) as [|raw rest] eqn:Hin; simpl; [done|].
  fold_normalize.
  destruct (decide (normalize raw = "quit")) as [Hq|Hq].
  { by intros [= <- <-]. }
  destruct (brain st) as [b|] eqn:Hb; simpl; [|done].
  destruct b; simpl; try done.
  all: destruct rest as [|teach rest']; simpl.
  all: repeat match goal with
         | |- context [if ?c then _ else _] => destruct c eqn:?; simpl
         | |- context [match ?m !! ?k with _ => _ end] =>
             destruct (m !! k) eqn:?; simpl
         end.
  all: try done.
  all: by intros [= <- <-].
Qed.

Lemma while_true_feed more n : forall st st',
  while_true n st = Ret tt st' ->
  while_true n (feed more st) = Ret tt (feed more st').
Proof.
  induction n as [|n IH]; intros st st'; simpl; [done|].
  unfold bind. destruct (body st) as [[|] st1|e st1|st1] eqn:E; try done.
  - rewrite (body_feed more _ _ _ E). by intros [= <-].
  - rewrite (body_feed more _ _ _ E). apply IH.
Qed.

Lemma startup_feed more st st' :
  startup st = Ret tt st' -> startup (feed more st) = Ret tt (feed more st').
Proof.
  unfold startup, bind. rewrite !load_spec. simpl.
  destruct (files st !! BRAIN) as [[| | | | |v]|]; simpl; try done.
  - destruct v; simpl; try done. all: by intros [= <-].
  - by intros [= <-].
Qed.

(** X12: lines after the one that ends the session are never read: when a
    run ends normally, the same run with further lines appended to the
    input ends normally too, with the same output and the same table, and
    the appended lines are left on the input. *)
Theorem X12_lines_after_quit_are_unread (fs : gmap string file)
    (lines more : list string) (st : state) :
  run fs lines = Ret tt st ->
  run fs (lines ++ more) = Ret tt (feed more st).
Proof.
  unfold run, main, bind. intros Hrun.
  pose proof (startup_spec fs lines) as (_ & Hin & _). simpl in Hin.
  destruct (startup (init fs lines)) as [[] st0|e st0|st0] eqn:Hs; try done.
  simpl in Hin. cbv beta in Hrun.
  change (init fs (lines ++ more)) with (feed more (init fs lines)).
  rewrite (startup_feed more _ _ Hs). cbv beta.
  apply while_true_feed.
  rewrite <- Hrun.
  apply (while_true_fuel (S (length (stdin (feed more st0))))
           (S (length (stdin st0))) st0); simpl; rewrite ?length_app; lia.
Qed.

Lemma X12_lines_after_quit_are_unread_witness :
  run ∅ (["hello"; "hi there"; " Quit "] ++ ["hello"; "more"]) =
    Ret tt (feed ["hello"; "more"]
              (State ∅ []
                 (banner 0 ++
                  [Prompt "You:"; Print [JStr "Bot: I don't know what to say"];
                   Prompt "Can you teach me?";
                   Print [JStr "Bot: Got it! I'll remember that"];
                   Prompt "You:"])
                 (Some (JDict {[ "hello" := JStr "hi there" ]})))).
Proof.
  apply (X12_lines_after_quit_are_unread ∅ ["hello"; "hi there"; " Quit "]
           ["hello"; "more"]).
  reflexivity.
Defined.

